(** * Legal-rag-agent: retrieval pipeline and chunking, embedded in Rocq

    A shallow embedding of [tools/pdf_extractor.py], [tools/chunking_tool.py],
    [tools/vector_store.py] and [agent.py].  Python [int] is [Z], [str] is
    [string] (characters in the ASCII range), a [dict] with string keys is a
    [gmap string _], a function that returns [{"success": ...}] returns a
    two-constructor result, and an exception is the text of [str(e)]. *)

From Stdlib Require Import ZArith QArith Ascii String List Lia Bool Sorted.
From Stdlib Require Import DecimalString DecimalZ.
From stdpp Require Import base option list gmap strings.

Local Open Scope Z_scope.

(** ** Python built-ins used by the sources *)

Module Py.

(** [len(s)] *)
Definition len (s : string) : Z := Z.of_nat (String.length s).

(** [c.isspace()] on the ASCII range: TAB, LF, VT, FF, CR, the four
    separators 0x1c..0x1f and the space. *)
Definition isspace (c : ascii) : bool :=
  let n := nat_of_ascii c in
  ((9 <=? n)%nat && (n <=? 13)%nat) || ((28 <=? n)%nat && (n <=? 32)%nat).

Definition flush (cur : string) : list string :=
  match cur with
  | EmptyString => []
  | _ => [cur]
  end.

(** [s.split()]: the maximal runs of non-whitespace characters, in order.
    [cur] is the word being read. *)
Fixpoint split_go (cur s : string) : list string :=
  match s with
  | EmptyString => flush cur
  | String c r =>
      if isspace c then flush cur ++ split_go EmptyString r
      else split_go (cur +:+ String c EmptyString) r
  end.

Definition split (s : string) : list string := split_go EmptyString s.

(** [sep.join(l)] *)
Fixpoint join (sep : string) (l : list string) : string :=
  match l with
  | [] => EmptyString
  | [w] => w
  | w :: l' => w +:+ sep +:+ join sep l'
  end.

(** [s.lstrip()], [s.rstrip()], [s.strip()] *)
Fixpoint lstrip (s : string) : string :=
  match s with
  | EmptyString => EmptyString
  | String c r => if isspace c then lstrip r else s
  end.

Fixpoint rstrip (s : string) : string :=
  match s with
  | EmptyString => EmptyString
  | String c r =>
      match rstrip r with
      | EmptyString => if isspace c then EmptyString else String c EmptyString
      | r' => String c r'
      end
  end.

Definition strip (s : string) : string := rstrip (lstrip s).

(** [s[:n]] for [n >= 0] *)
Fixpoint take (n : nat) (s : string) : string :=
  match n, s with
  | S n', String c r => String c (take n' r)
  | _, _ => EmptyString
  end.

(** [str(i)] for an [int] *)
Definition str (i : Z) : string := NilEmpty.string_of_int (Z.to_int i).

(** [c.lower()] and [s.lower()] on the ASCII range *)
Definition lower_char (c : ascii) : ascii :=
  let n := nat_of_ascii c in
  if (65 <=? n)%nat && (n <=? 90)%nat then ascii_of_nat (n + 32) else c.

Fixpoint lower (s : string) : string :=
  match s with
  | EmptyString => EmptyString
  | String c r => String (lower_char c) (lower r)
  end.

(** [s.endswith(suffix)] *)
Definition endswith (s suffix : string) : bool :=
  let n := String.length s in
  let k := String.length suffix in
  (k <=? n)%nat && String.eqb (String.substring (n - k) k s) suffix.

(** [os.path.basename(p)]: what follows the last slash *)
Fixpoint basename_go (cur p : string) : string :=
  match p with
  | EmptyString => cur
  | String c r =>
      if Ascii.eqb c "/" then basename_go EmptyString r
      else basename_go (cur +:+ String c EmptyString) r
  end.

Definition basename (p : string) : string := basename_go EmptyString p.

(** the line feed and the double quote, which a literal cannot hold *)
Definition LF : string := String "010" EmptyString.
Definition DQ : string := String "034" EmptyString.

(** [c * n] for a one-character string, used to build sample texts *)
Fixpoint replicate_char (n : nat) (c : ascii) : string :=
  match n with
  | O => EmptyString
  | S n' => String c (replicate_char n' c)
  end.

End Py.

(** ** tools/chunking_tool.py: the sizing policy *)

Definition get_optimal_chunk_size (text : string) : Z :=
  let text_length := Py.len text in
  if text_length <? 5000 then 500
  else if text_length <? 20000 then 1000
  else if text_length <? 100000 then 1500
  else 2000.

(** ** Dynamic values, exceptions and result dictionaries *)

(** The values the pipeline keeps in its dictionaries. *)
Inductive value :=
| VStr (s : string)
| VInt (i : Z).

(** [f"{v}"] *)
Definition fmt (v : value) : string :=
  match v with
  | VStr s => s
  | VInt i => Py.str i
  end.

(** Truth value of [d.get(k)]: [None], [""] and [0] are false. *)
Definition truthy (v : option value) : bool :=
  match v with
  | None => false
  | Some (VStr s) => negb (String.eqb s "")
  | Some (VInt i) => negb (i =? 0)
  end.

(** [d.get(k, default)] *)
Definition dict_get (d : gmap string value) (k : string) (default : value) : value :=
  match d !! k with
  | Some v => v
  | None => default
  end.

(** [a or b] on the results of [d.get(k)] *)
Definition py_or (a : option value) (b : option value) : option value :=
  if truthy a then a else b.

(** A library call either returns or raises; [msg] is [str(e)]. *)
Inductive exc (A : Type) :=
| Return (a : A)
| Raise (msg : string).
Arguments Return {A} a.
Arguments Raise {A} msg.

Definition exc_bind {A B} (m : exc A) (k : A -> exc B) : exc B :=
  match m with
  | Return a => k a
  | Raise e => Raise e
  end.

Notation "'try!' x ':=' m 'in' k" := (exc_bind m (fun x => k))
  (at level 10, x name, m at level 100, k at level 200).

(** [l[i]] *)
Definition getitem {A} (l : list A) (i : nat) : exc A :=
  match l !! i with
  | Some a => Return a
  | None => Raise "list index out of range"
  end.

(** [[f(i) for i in l]] where [f] may raise *)
Fixpoint exc_map {A B} (f : A -> exc B) (l : list A) : exc (list B) :=
  match l with
  | [] => Return []
  | a :: l' =>
      try! b := f a in
      try! bs := exc_map f l' in
      Return (b :: bs)
  end.

(** Every stage answers [{"success": True, ...}] or
    [{"success": False, "error": msg}]. *)
Inductive outcome (A : Type) :=
| Success (a : A)
| Failure (error : string).
Arguments Success {A} a.
Arguments Failure {A} error.

Definition is_success {A} (o : outcome A) : bool :=
  match o with
  | Success _ => true
  | Failure _ => false
  end.

(** ** The external collaborators *)

(** What [collection.query] answers: one row of hits per query text. *)
Record QueryResult := {
  q_ids : list (list string);
  q_documents : list (list string);
  q_metadatas : list (list (gmap string value));
  q_distances : option (list (list Q))
}.

(** The vector index behind [self.collection]: the adapter only counts,
    adds and queries.  [coll_add] hands back the collection as the call
    left it, also when it raised. *)
Record Collection := {
  coll_state : Type;
  coll_count : coll_state -> Z;
  coll_add : list value -> list (gmap string value) -> list value ->
             coll_state -> exc unit * coll_state;
  coll_query : string -> Z -> coll_state -> exc QueryResult
}.

(** The file system, PyPDF2, the langchain splitter and the Gemini model.
    [PdfReader p] is the list of [page.extract_text()] of the file, and
    [split_text size overlap text] is
    [RecursiveCharacterTextSplitter(...).split_text(text)]. *)
Record Externals := {
  index_impl : Collection;
  path_exists : string -> bool;
  PdfReader : string -> exc (list string);
  split_text : Z -> Z -> string -> exc (list string);
  llm_invoke : string -> exc string
}.

(** ** tools/pdf_extractor.py and tools/chunking_tool.py *)

Record pdf_metadata := {
  md_filename : string;
  md_num_pages : Z;
  md_total_characters : Z;
  md_total_words : Z
}.

Record extraction := {
  ex_text : string;
  ex_page_texts : gmap Z string;
  ex_metadata : pdf_metadata
}.

Record chunk_statistics := {
  st_total_chunks : Z;
  st_avg_chunk_size : Z;
  st_total_characters : Z;
  st_total_words : Z
}.

Record chunking := {
  ch_chunks : list (gmap string value);
  ch_statistics : chunk_statistics
}.

(** [" ".join(text.split())] *)
Definition clean_text (text : string) : string :=
  Py.join " " (Py.split text).

(** The page loop of [extract_text_from_pdf]; [page_num] counts from 0. *)
Fixpoint read_pages (pages : list string) (page_num : Z)
    (all_text : list string) (page_texts : gmap Z string)
  : list string * gmap Z string :=
  match pages with
  | [] => (all_text, page_texts)
  | raw :: rest =>
      let text := clean_text raw in
      read_pages rest (page_num + 1) (all_text ++ [text])
        (<[page_num + 1 := text]> page_texts)
  end.

(** [sum(len(c) for c in chunks)] *)
Definition total_len (chunks : list string) : Z :=
  foldr (fun c acc => Py.len c + acc) 0 chunks.

(** [not text or len(text.strip()) == 0] *)
Definition is_blank (text : string) : bool :=
  String.eqb text "" || (Py.len (Py.strip text) =? 0).

(** The dictionary built for the chunk at position [i] (from 0). *)
Definition chunk_obj (source_name : string) (total : Z) (i : nat)
    (chunk : string) : gmap string value :=
  <["id" := VStr (source_name +:+ "_chunk_" +:+ Py.str (Z.of_nat i + 1))]>
  (<["text" := VStr chunk]>
  (<["chunk_index" := VInt (Z.of_nat i + 1)]>
  (<["total_chunks" := VInt total]>
  (<["source" := VStr source_name]>
  (<["char_count" := VInt (Py.len chunk)]>
  (<["word_count" := VInt (Z.of_nat (length (Py.split chunk)))]> ∅)))))).

Section Stages.
Context (X : Externals).

Definition extract_text_from_pdf (pdf_path : string) : outcome extraction :=
  if negb (path_exists X pdf_path) then
    Failure ("File not found: " +:+ pdf_path)
  else if negb (Py.endswith (Py.lower pdf_path) ".pdf") then
    Failure "File must be a PDF (.pdf extension)"
  else
    match PdfReader X pdf_path with
    | Raise e => Failure ("Error extracting PDF: " +:+ e)
    | Return pages =>
        let num_pages := Z.of_nat (length pages) in
        let '(all_text, page_texts) := read_pages pages 0 [] ∅ in
        let combined_text := Py.join " " all_text in
        Success {|
          ex_text := combined_text;
          ex_page_texts := page_texts;
          ex_metadata := {|
            md_filename := Py.basename pdf_path;
            md_num_pages := num_pages;
            md_total_characters := Py.len combined_text;
            md_total_words := Z.of_nat (length (Py.split combined_text))
          |}
        |}
    end.

Definition chunk_text (text : string) (chunk_size chunk_overlap : Z)
    (source_name : string) : outcome chunking :=
  if is_blank text then Failure "Text is empty or None"
  else
    match split_text X chunk_size chunk_overlap text with
    | Raise e => Failure ("Error chunking text: " +:+ e)
    | Return chunks =>
        let total := Z.of_nat (length chunks) in
        Success {|
          ch_chunks := imap (chunk_obj source_name total) chunks;
          ch_statistics := {|
            st_total_chunks := total;
            st_avg_chunk_size :=
              match chunks with
              | [] => 0
              | _ => total_len chunks `div` total
              end;
            st_total_characters := Py.len text;
            st_total_words := Z.of_nat (length (Py.split text))
          |}
        |}
    end.

End Stages.

(** ** tools/vector_store.py *)

(** The calls issued to the index and to the model, oldest first. *)
Inductive call :=
| Count
| Add (documents : list value) (metadatas : list (gmap string value))
      (ids : list value)
| Query (query_text : string) (n_results : Z)
| Invoke (prompt : string).

Record document_info := {
  di_filename : string;
  di_num_pages : Z;
  di_total_words : Z;
  di_num_chunks : Z;
  di_chunk_size : Z
}.

(** The agent object: the collection behind [self.vector_store], the
    attribute [self.current_document], and the log of external calls. *)
Record agent (C : Collection) := {
  collection : coll_state C;
  current_document : option document_info;
  calls : list call
}.
Arguments collection {C} a.
Arguments current_document {C} a.
Arguments calls {C} a.

Record add_result := {
  chunks_added : Z;
  total_documents : Z
}.

(** One formatted hit of [search]. *)
Record hit := {
  hit_text : string;
  hit_metadata : gmap string value;
  hit_id : string;
  hit_distance : option Q
}.

Record search_result := {
  sr_query : string;
  sr_results : list hit;
  sr_count : Z
}.

(** The metadata record stored with a chunk. *)
Definition chunk_metadata (chunk : gmap string value) : gmap string value :=
  <["chunk_index" := dict_get chunk "chunk_index" (VInt 0)]>
  (<["source" := dict_get chunk "source" (VStr "unknown")]>
  (<["char_count" := dict_get chunk "char_count" (VInt 0)]>
  (<["word_count" := dict_get chunk "word_count" (VInt 0)]>
  (<["page_number" := dict_get chunk "page_number" (VInt 0)]> ∅)))).

(** [chunk.get("id") or chunk.get("global_chunk_id") or f"chunk_{len(ids)}"] *)
Definition chunk_id (chunk : gmap string value) (ids : list value) : value :=
  match py_or (chunk !! "id") (chunk !! "global_chunk_id") with
  | Some v => if truthy (Some v) then v
              else VStr ("chunk_" +:+ Py.str (Z.of_nat (length ids)))
  | None => VStr ("chunk_" +:+ Py.str (Z.of_nat (length ids)))
  end.

(** The loop of [add_chunks] that fills the three parallel lists;
    [chunk["text"]] raises [KeyError] on a chunk without text. *)
Fixpoint prepare (chunks : list (gmap string value))
    (documents : list value) (metadatas : list (gmap string value))
    (ids : list value)
  : exc (list value * list (gmap string value) * list value) :=
  match chunks with
  | [] => Return (documents, metadatas, ids)
  | chunk :: rest =>
      match chunk !! "text" with
      | None => Raise "'text'"
      | Some t =>
          prepare rest (documents ++ [t])
            (metadatas ++ [chunk_metadata chunk])
            (ids ++ [chunk_id chunk ids])
      end
  end.

(** The hit at position [i] of the first row of a query answer. *)
Definition format_hit (results : QueryResult) (i : nat) : exc hit :=
  try! docs := getitem (q_documents results) 0 in
  try! text := getitem docs i in
  try! mds := getitem (q_metadatas results) 0 in
  try! md := getitem mds i in
  try! row := getitem (q_ids results) 0 in
  try! id := getitem row i in
  try! distance :=
    match q_distances results with
    | None => Return None
    | Some ds =>
        try! ds0 := getitem ds 0 in
        try! d := getitem ds0 i in
        Return (Some d)
    end in
  Return {| hit_text := text; hit_metadata := md; hit_id := id;
            hit_distance := distance |}.

(** [search_results] as built from the answer of the index. *)
Definition format_results (results : QueryResult) : exc (list hit) :=
  match q_documents results with
  | (_ :: _) as docs0 :: _ =>
      exc_map (format_hit results) (seq 0 (length docs0))
  | _ => Return []
  end.

(** Methods run on the agent object and may change it. *)
Definition M (C : Collection) (A : Type) : Type := agent C -> A * agent C.

Definition ret {C A} (a : A) : M C A := fun s => (a, s).

Definition bind {C A B} (m : M C A) (k : A -> M C B) : M C B :=
  fun s => let '(a, s') := m s in k a s'.

Notation "'run!' x ':=' m 'in' k" := (bind m (fun x => k))
  (at level 10, x name, m at level 100, k at level 200).

Definition log {C} (c : call) (s : agent C) : agent C :=
  {| collection := collection s;
     current_document := current_document s;
     calls := calls s ++ [c] |}.

Section VectorStore.
Context (X : Externals).
Local Abbreviation C := (index_impl X).

(** [self.collection.count()] *)
Definition count : M C Z :=
  fun s => (coll_count C (collection s), log Count s).

(** [self.collection.add(documents=..., metadatas=..., ids=...)] *)
Definition add (documents : list value)
    (metadatas : list (gmap string value)) (ids : list value)
  : M C (exc unit) :=
  fun s =>
    let '(r, c') := coll_add C documents metadatas ids (collection s) in
    (r, {| collection := c';
           current_document := current_document s;
           calls := calls s ++ [Add documents metadatas ids] |}).

(** [self.collection.query(query_texts=[query], n_results=n)] *)
Definition query (query_text : string) (n_results : Z)
  : M C (exc QueryResult) :=
  fun s => (coll_query C query_text n_results (collection s),
            log (Query query_text n_results) s).

(** [self.llm.invoke(prompt).content] *)
Definition invoke (prompt : string) : M C (exc string) :=
  fun s => (llm_invoke X prompt, log (Invoke prompt) s).

Definition add_chunks (chunks : list (gmap string value))
  : M C (outcome add_result) :=
  match chunks with
  | [] => ret (Failure "No chunks provided")
  | _ =>
      match prepare chunks [] [] [] with
      | Raise e => ret (Failure ("Error adding chunks: " +:+ e))
      | Return (documents, metadatas, ids) =>
          run! r := add documents metadatas ids in
          match r with
          | Raise e => ret (Failure ("Error adding chunks: " +:+ e))
          | Return _ =>
              run! n := count in
              ret (Success {| chunks_added := Z.of_nat (length chunks);
                              total_documents := n |})
          end
      end
  end.

Definition search (query_text : string) (top_k : Z)
  : M C (outcome search_result) :=
  if is_blank query_text then ret (Failure "Query is empty")
  else
    run! n := count in
    if n =? 0 then
      ret (Failure
             "No documents in vector store. Please add documents first.")
    else
      run! n' := count in
      run! r := query query_text (Z.min top_k n') in
      match r with
      | Raise e => ret (Failure ("Error searching: " +:+ e))
      | Return results =>
          match format_results results with
          | Raise e => ret (Failure ("Error searching: " +:+ e))
          | Return search_results =>
              ret (Success {|
                sr_query := query_text;
                sr_results := search_results;
                sr_count := Z.of_nat (length search_results) |})
          end
      end.

End VectorStore.

(** ** agent.py *)

Record source := {
  src_text : string;
  src_source : value;
  src_page : value
}.

Record answer := {
  ans_question : string;
  ans_answer : string;
  ans_sources : list source;
  ans_num_sources : Z
}.

(** One passage of the context, with its citation header. *)
Definition annotate (chunk : hit) : string :=
  "[Source: " +:+ fmt (dict_get (hit_metadata chunk) "source" (VStr "unknown"))
  +:+ ", " +:+ "Page: "
  +:+ fmt (dict_get (hit_metadata chunk) "page_number" (VStr "N/A"))
  +:+ "]" +:+ Py.LF +:+ hit_text chunk.

Definition build_context (relevant_chunks : list hit) : string :=
  Py.join (Py.LF +:+ Py.LF) (map annotate relevant_chunks).

Definition build_prompt (context question : string) : string :=
  Py.join Py.LF [
    "You are a legal document analysis assistant. Answer the question based ONLY on the provided context from the document.";
    "";
    "Context from document:";
    context;
    "";
    "Question: " +:+ question;
    "";
    "Instructions:";
    "1. Answer based ONLY on the context provided above";
    "2. If the answer is not in the context, say " +:+ Py.DQ
      +:+ "I cannot find this information in the document" +:+ Py.DQ;
    "3. Be precise and cite the source/page when possible";
    "4. Keep the answer clear and concise";
    "";
    "Answer:" ].

Definition cite (chunk : hit) : source :=
  {| src_text := Py.take 200 (hit_text chunk) +:+ "...";
     src_source := dict_get (hit_metadata chunk) "source" (VStr "unknown");
     src_page := dict_get (hit_metadata chunk) "page_number" (VStr "N/A") |}.

Definition key_topics : list string :=
  [ "payment terms"; "termination clause"; "confidentiality"; "liability";
    "duration of contract"; "dispute resolution" ].

Definition topic_question (topic : string) : string :=
  "What does the document say about " +:+ topic +:+ "?".

Section Agent.
Context (X : Externals).
Local Abbreviation C := (index_impl X).

(** [self.current_document = info] *)
Definition set_current_document (info : document_info) : M C unit :=
  fun s => (tt, {| collection := collection s;
                   current_document := Some info;
                   calls := calls s |}).

(** The progress lines printed along the way are left out.  Each stage
    hands its failure back as a value, so nothing in the body raises and
    the outer handler of the method has no case here. *)
Definition process_document (pdf_path : string)
  : M C (outcome (string * document_info)) :=
  match extract_text_from_pdf X pdf_path with
  | Failure e => ret (Failure ("PDF extraction failed: " +:+ e))
  | Success extract_result =>
      let text := ex_text extract_result in
      let metadata := ex_metadata extract_result in
      let optimal_size := get_optimal_chunk_size text in
      match chunk_text X text optimal_size 200 (md_filename metadata) with
      | Failure e => ret (Failure ("Chunking failed: " +:+ e))
      | Success chunk_result =>
          let chunks := ch_chunks chunk_result in
          run! store_result := add_chunks X chunks in
          match store_result with
          | Failure e => ret (Failure ("Vector storage failed: " +:+ e))
          | Success _ =>
              let info := {|
                di_filename := md_filename metadata;
                di_num_pages := md_num_pages metadata;
                di_total_words := md_total_words metadata;
                di_num_chunks := Z.of_nat (length chunks);
                di_chunk_size := optimal_size |} in
              run! _ := set_current_document info in
              ret (Success ("Document processed successfully!", info))
          end
      end
  end.

(** In the body only [llm.invoke] can raise; the outer handler turns that
    into "Error answering question: ...". *)
Definition ask_question (question : string) (top_k : Z)
  : M C (outcome answer) :=
  run! search_result := search X question top_k in
  match search_result with
  | Failure e => ret (Failure e)
  | Success found =>
      if sr_count found =? 0 then
        ret (Failure "No relevant information found in the document.")
      else
        let relevant_chunks := sr_results found in
        let context := build_context relevant_chunks in
        let prompt := build_prompt context question in
        run! response := invoke X prompt in
        match response with
        | Raise e => ret (Failure ("Error answering question: " +:+ e))
        | Return text =>
            let sources := map cite relevant_chunks in
            ret (Success {|
              ans_question := question;
              ans_answer := text;
              ans_sources := sources;
              ans_num_sources := Z.of_nat (length sources) |})
        end
  end.

(** The topic loop of [extract_key_clauses]; [results] is the
    dictionary filled so far. *)
Fixpoint collect_clauses (topics : list string)
    (results : gmap string string) : M C (gmap string string) :=
  match topics with
  | [] => ret results
  | topic :: rest =>
      run! result := ask_question (topic_question topic) 2 in
      match result with
      | Success a => collect_clauses rest (<[topic := ans_answer a]> results)
      | Failure _ => collect_clauses rest results
      end
  end.

Definition extract_key_clauses : M C (outcome (gmap string string)) :=
  run! results := collect_clauses key_topics ∅ in
  ret (Success results).

Definition get_document_summary : M C (outcome answer) :=
  ask_question
    "Provide a brief summary of this document covering the main points and purpose."
    5.

End Agent.

(** ** The index as chromadb's persistent client behaves

    A reference model of the collection the adapter talks to.  Records
    are kept in insertion order.  [add] checks the batch (string ids,
    string documents, no id twice in the batch) and then stores each
    record whose id is new; a record whose id is already stored is left
    as it is.  [query] refuses a request for fewer than one result and
    otherwise answers the nearest records, closest first, records at the
    same distance in insertion order. *)

Module Chroma.

Record record := {
  rec_id : string;
  rec_document : string;
  rec_metadata : gmap string value
}.

Definition as_str (v : value) : option string :=
  match v with
  | VStr s => Some s
  | VInt _ => None
  end.

Fixpoint unique (l : list string) : bool :=
  match l with
  | [] => true
  | x :: l' => negb (existsb (String.eqb x) l') && unique l'
  end.

Definition has_id (s : list record) (i : string) : bool :=
  existsb (fun r => String.eqb (rec_id r) i) s.

Definition add_one (s : list record) (r : record) : list record :=
  if has_id s (rec_id r) then s else s ++ [r].

Definition records (ids docs : list string)
    (mds : list (gmap string value)) : list record :=
  zip_with (fun i dm => {| rec_id := i; rec_document := dm.1;
                           rec_metadata := dm.2 |})
    ids (zip docs mds).

Definition count (s : list record) : Z := Z.of_nat (length s).

Definition add (documents : list value)
    (metadatas : list (gmap string value)) (ids : list value)
    (s : list record) : exc unit * list record :=
  match mapM as_str ids, mapM as_str documents with
  | None, _ => (Raise "Expected ID to be a str", s)
  | _, None => (Raise "Expected document to be a str", s)
  | Some ids', Some docs' =>
      if negb ((length ids' =? length docs')%nat
               && (length ids' =? length metadatas)%nat) then
        (Raise "Unequal lengths for fields", s)
      else if negb (unique ids') then
        (Raise "Expected IDs to be unique", s)
      else (Return tt, foldl add_one s (records ids' docs' metadatas))
  end.

(** [get(ids=[i])]: the stored record with that id *)
Definition lookup (s : list record) (i : string) : option record :=
  find (fun r => String.eqb (rec_id r) i) s.

Section Query.
(** The distance between the embeddings of a query and a document. *)
Variable distance : string -> string -> Q.

(** The ranking of the reference index.  Records at equal distance are
    kept in the order they were added: the library promises no order
    among them, and this order is the choice of the reference index
    only. *)
Fixpoint insert_by (q : string) (r : record) (l : list record)
  : list record :=
  match l with
  | [] => [r]
  | x :: l' =>
      if Qle_bool (distance q (rec_document r))
                  (distance q (rec_document x))
      then r :: l
      else x :: insert_by q r l'
  end.

Definition nearest (q : string) (s : list record) : list record :=
  foldr (insert_by q) [] s.

Definition query (q : string) (n_results : Z) (s : list record)
  : exc QueryResult :=
  if n_results <=? 0 then
    Raise ("Number of requested results " +:+ Py.str n_results
           +:+ ", cannot be negative, or zero.")
  else
    let top := take (Z.to_nat n_results) (nearest q s) in
    Return {|
      q_ids := [map rec_id top];
      q_documents := [map rec_document top];
      q_metadatas := [map rec_metadata top];
      q_distances :=
        Some [map (fun r => distance q (rec_document r)) top] |}.

Definition index : Collection := {|
  coll_state := list record;
  coll_count := count;
  coll_add := add;
  coll_query := query |}.

End Query.

End Chroma.

(** The pipeline running on the reference model of the index. *)
Definition on_chroma (distance : string -> string -> Q) (X : Externals)
  : Externals := {|
  index_impl := Chroma.index distance;
  path_exists := path_exists X;
  PdfReader := PdfReader X;
  split_text := split_text X;
  llm_invoke := llm_invoke X |}.

(** The hit that [search] makes of a stored record. *)
Definition chroma_hit (distance : string -> string -> Q) (q : string)
    (r : Chroma.record) : hit :=
  {| hit_text := Chroma.rec_document r;
     hit_metadata := Chroma.rec_metadata r;
     hit_id := Chroma.rec_id r;
     hit_distance := Some (distance q (Chroma.rec_document r)) |}.

(** [a] is at most as far from the query as [b]. *)
Definition closer (distance : string -> string -> Q) (q : string)
    (a b : Chroma.record) : Prop :=
  (distance q (Chroma.rec_document a) <= distance q (Chroma.rec_document b))%Q.

(** ** Stand-ins for the collaborators, to run the pipeline on examples *)

Module Sample.

(** A toy embedding distance: the difference of the text lengths. *)
Definition distance (q d : string) : Q :=
  inject_Z (Z.abs (Py.len q - Py.len d)).

(** A splitter that only knows the hard cut every [width] characters. *)
Fixpoint cut (width room : nat) (cur s : string) : list string :=
  match s with
  | EmptyString => Py.flush cur
  | String c r =>
      match room with
      | O => cur :: cut width (width - 1) (String c EmptyString) r
      | S room' => cut width room' (cur +:+ String c EmptyString) r
      end
  end.

Definition hard_cut (chunk_size chunk_overlap : Z) (text : string)
  : exc (list string) :=
  if chunk_size <? chunk_overlap then
    Raise ("Got a larger chunk overlap (" +:+ Py.str chunk_overlap
           +:+ ") than chunk size (" +:+ Py.str chunk_size
           +:+ "), should be smaller.")
  else Return (cut (Z.to_nat chunk_size) (Z.to_nat chunk_size)
                 EmptyString text).

(** A splitter that finds nothing to keep. *)
Definition no_chunks (chunk_size chunk_overlap : Z) (text : string)
  : exc (list string) := Return [].

(** A directory of PDF files, each given by the raw text of its pages. *)
Definition reader (files : gmap string (list string)) (p : string)
  : exc (list string) :=
  match files !! p with
  | Some pages => Return pages
  | None => Raise "EOF marker not found"
  end.

Definition present (files : gmap string (list string)) (p : string) : bool :=
  bool_decide (is_Some (files !! p)).

(** A model that always gives the same answer, and one that is down. *)
Definition fixed_reply (text prompt : string) : exc string := Return text.
Definition offline (prompt : string) : exc string :=
  Raise "503 Service Unavailable".

Definition externals (files : gmap string (list string))
    (splitter : Z -> Z -> string -> exc (list string))
    (model : string -> exc string) : Externals := {|
  index_impl := Chroma.index distance;
  path_exists := present files;
  PdfReader := reader files;
  split_text := splitter;
  llm_invoke := model |}.

(** An index that counts one record and reports no hit. *)
Definition silent_index : Collection := {|
  coll_state := unit;
  coll_count := fun _ => 1;
  coll_add := fun _ _ _ s => (Return tt, s);
  coll_query := fun _ _ _ =>
    Return {| q_ids := [[]]; q_documents := [[]]; q_metadatas := [[]];
              q_distances := Some [[]] |} |}.

Definition silent_externals : Externals := {|
  index_impl := silent_index;
  path_exists := fun _ => false;
  PdfReader := fun _ => Raise "EOF marker not found";
  split_text := no_chunks;
  llm_invoke := offline |}.

Definition fresh (C : Collection) (c : coll_state C) : agent C :=
  {| collection := c; current_document := None; calls := [] |}.

Definition files : gmap string (list string) :=
  <["documents/lease.pdf" :=
      [ "  LEASE   AGREEMENT " +:+ Py.LF +:+ " between the parties ";
        "";
        "The termination notice" +:+ Py.LF +:+ "period is 30 days." ]]>
  (<["documents/blank.pdf" := [ "   "; Py.LF ]]>
  (<["documents/notes.txt" := [ "plain text" ]]> ∅)).

Definition passage : gmap string value :=
  <["id" := VStr "doc_chunk_1"]>
  (<["text" := VStr "The termination notice period is 30 days."]>
  (<["source" := VStr "doc"]>
  (<["page_number" := VInt 1]> ∅))).

Definition revised : gmap string value :=
  <["text" := VStr "The termination notice period is 60 days."]> passage.

Definition clause : gmap string value :=
  <["id" := VStr "doc_chunk_2"]>
  (<["text" := VStr "Payment is due within 14 days of invoice."]>
  (<["source" := VStr "doc"]> ∅)).

Definition chroma : Collection := Chroma.index distance.

Definition pipeline : Externals :=
  externals files hard_cut (fixed_reply "30 days").
Definition muted : Externals := externals files hard_cut offline.

Definition empty : agent chroma := fresh chroma [].
Definition loaded : agent chroma := (add_chunks pipeline [passage] empty).2.
Definition stocked : agent chroma := (add_chunks pipeline [clause] loaded).2.

Definition question : string := "What is the termination notice period?".

Definition lease_info : document_info := {|
  di_filename := "lease.pdf";
  di_num_pages := 3;
  di_total_words := 12;
  di_num_chunks := 1;
  di_chunk_size := 500 |}.

(** An agent that has a document loaded. *)
Definition busy : agent chroma :=
  {| collection := collection loaded;
     current_document := Some lease_info;
     calls := [] |}.


Definition lease_chunking : chunking := {|
  ch_chunks := imap (chunk_obj "lease.pdf" 3) ["LEASE"; " AGRE"; "EMENT"];
  ch_statistics := {|
    st_total_chunks := 3;
    st_avg_chunk_size := 5;
    st_total_characters := 15;
    st_total_words := 2 |} |}.

Definition lease_extraction : extraction := {|
  ex_text :=
    "LEASE AGREEMENT between the parties  The termination notice period is 30 days.";
  ex_page_texts :=
    <[1 := "LEASE AGREEMENT between the parties"]>
    (<[2 := ""]>
    (<[3 := "The termination notice period is 30 days."]> ∅));
  ex_metadata := {|
    md_filename := "lease.pdf";
    md_num_pages := 3;
    md_total_characters := 78;
    md_total_words := 12 |} |}.

Definition blank_extraction : extraction := {|
  ex_text := " ";
  ex_page_texts := <[1 := ""]> (<[2 := ""]> ∅);
  ex_metadata := {|
    md_filename := "blank.pdf";
    md_num_pages := 2;
    md_total_characters := 1;
    md_total_words := 0 |} |}.

(** The chunking of the lease as [hard_cut] gives it for the size 500 of
    a short document. *)
Definition whole_chunking : chunking := {|
  ch_chunks := imap (chunk_obj "lease.pdf" 1) [ex_text lease_extraction];
  ch_statistics := {|
    st_total_chunks := 1;
    st_avg_chunk_size := 78;
    st_total_characters := 78;
    st_total_words := 12 |} |}.


Definition processed : agent chroma :=
  (process_document pipeline "documents/lease.pdf" empty).2.

(** An index whose disk is full: it holds nothing and refuses every add. *)
Definition refusing_index : Collection := {|
  coll_state := unit;
  coll_count := fun _ => 0;
  coll_add := fun _ _ _ s => (Raise "database or disk is full", s);
  coll_query := fun _ _ _ => Raise "database or disk is full" |}.

Definition refused : Externals := {|
  index_impl := refusing_index;
  path_exists := present files;
  PdfReader := reader files;
  split_text := hard_cut;
  llm_invoke := fixed_reply "30 days" |}.

(** An agent on the full index that still remembers the lease. *)
Definition waiting : agent refusing_index :=
  {| collection := (tt : coll_state refusing_index);
     current_document := Some lease_info;
     calls := [] |}.

Definition turned_away : agent refusing_index :=
  (process_document refused "documents/lease.pdf" waiting).2.

Definition text_of_length (n : Z) : string :=
  Py.replicate_char (Z.to_nat n) "a".

End Sample.

(** ** The specification's wording of page normalisation

    "collapsing all whitespace runs to single spaces and trimming":
    [squeeze] writes one space for each maximal run of whitespace, and the
    result is then stripped at both ends. *)

Module Spec.

Fixpoint squeeze (in_run : bool) (s : string) : string :=
  match s with
  | EmptyString => EmptyString
  | String c r =>
      if Py.isspace c then
        if in_run then squeeze true r else String " " (squeeze true r)
      else String c (squeeze false r)
  end.

Definition collapse_runs (s : string) : string := squeeze false s.

Definition normalize (s : string) : string := Py.strip (collapse_runs s).

End Spec.

(** ** Vocabulary of the statements *)

(** The failure kinds of a query, by their messages. *)
Definition EmptyQuery : string := "Query is empty".
Definition EmptyStore : string :=
  "No documents in vector store. Please add documents first.".
Definition NoRelevantInformation : string :=
  "No relevant information found in the document.".

(** A word has at least one character and no whitespace. *)
Fixpoint no_space (s : string) : bool :=
  match s with
  | EmptyString => true
  | String c r => negb (Py.isspace c) && no_space r
  end.

Definition is_word (w : string) : Prop := w <> "" /\ no_space w = true.

(** The same agent with an empty call log. *)
Definition quiet {C} (s : agent C) : agent C :=
  {| collection := collection s;
     current_document := current_document s;
     calls := [] |}.

(** [s] after a method that issued the calls [cs] and left the
    collection [c]. *)
Definition after {C} (s : agent C) (c : coll_state C) (cs : list call)
  : agent C :=
  {| collection := c;
     current_document := current_document s;
     calls := calls s ++ cs |}.

(** The answer text of a successful lookup. *)
Definition answer_text (o : outcome answer) : option string :=
  match o with
  | Success a => Some (ans_answer a)
  | Failure _ => None
  end.

(** One round of the topic loop, seen from the state [s] it started in. *)
Definition clause_step (X : Externals) (s : agent (index_impl X))
    (acc : gmap string string) (topic : string) : gmap string string :=
  match answer_text (ask_question X (topic_question topic) 2 (quiet s)).1 with
  | Some text => <[topic := text]> acc
  | None => acc
  end.

Definition clause_calls (X : Externals) (s : agent (index_impl X))
    (topic : string) : list call :=
  calls (ask_question X (topic_question topic) 2 (quiet s)).2.

(** Lookups in a dictionary written key by key. *)
Ltac dict_lookup :=
  repeat first
    [ rewrite lookup_insert_eq
    | rewrite lookup_insert_ne by discriminate
    | rewrite lookup_empty ].

(** ** tools/chunking_tool.py: page-aware chunking *)

Record page_chunking := {
  pc_chunks : list (gmap string value);
  pc_total_pages : Z;
  pc_total_chunks : Z
}.

(** The inner loop of [chunk_by_pages]: every chunk of one page gets the
    page number and the next global number. *)
Fixpoint stamp_chunks (page_num : Z) (chunks : list (gmap string value))
    (chunk_counter : Z) (all_chunks : list (gmap string value))
  : Z * list (gmap string value) :=
  match chunks with
  | [] => (chunk_counter, all_chunks)
  | chunk :: rest =>
      let chunk1 := <["page_number" := VInt page_num]> chunk in
      let chunk2 :=
        <["global_chunk_id" := VStr ("chunk_" +:+ Py.str chunk_counter)]>
          chunk1 in
      stamp_chunks page_num rest (chunk_counter + 1) (all_chunks ++ [chunk2])
  end.

Section PageChunking.
Context (X : Externals).

(** The page loop of [chunk_by_pages] over [page_texts.items()], the
    items of the dictionary in insertion order. *)
Fixpoint chunk_pages (items : list (Z * string)) (chunk_size chunk_overlap : Z)
    (chunk_counter : Z) (all_chunks : list (gmap string value))
  : list (gmap string value) :=
  match items with
  | [] => all_chunks
  | (page_num, text) :: rest =>
      if is_blank text then
        chunk_pages rest chunk_size chunk_overlap chunk_counter all_chunks
      else
        match chunk_text X text chunk_size chunk_overlap
                ("page_" +:+ Py.str page_num) with
        | Success result =>
            let '(counter, chunks) :=
              stamp_chunks page_num (ch_chunks result) chunk_counter
                all_chunks in
            chunk_pages rest chunk_size chunk_overlap counter chunks
        | Failure _ =>
            chunk_pages rest chunk_size chunk_overlap chunk_counter all_chunks
        end
  end.

(** [page_texts] is given by its items, whose keys are distinct. *)
Definition chunk_by_pages (page_texts : list (Z * string))
    (chunk_size chunk_overlap : Z) : outcome page_chunking :=
  match page_texts with
  | [] => Failure "No page texts provided"
  | _ =>
      let all_chunks := chunk_pages page_texts chunk_size chunk_overlap 1 [] in
      Success {|
        pc_chunks := all_chunks;
        pc_total_pages := Z.of_nat (length page_texts);
        pc_total_chunks := Z.of_nat (length all_chunks) |}
  end.

End PageChunking.

(** ** tools/vector_store.py and agent.py: lifecycle of the collection *)

(** The client behind [self.client] and the constructor of [VectorStore]:
    [client_delete name] is [client.delete_collection(name=name)],
    [client_open name] is what [VectorStore(collection_name=name)] finds
    through [get_or_create_collection], or the exception it raises. *)
Record Client (C : Collection) := {
  client_delete : string -> coll_state C -> exc unit * coll_state C;
  client_open : string -> coll_state C -> exc (coll_state C)
}.
Arguments client_delete {C} c.
Arguments client_open {C} c.


Section Lifecycle.
Context (X : Externals).
Local Abbreviation C := (index_impl X).
Context (K : Client C).

(** [collection_name] is the attribute of the store object. *)
Definition delete_collection (collection_name : string)
  : M C (outcome string) :=
  fun s =>
    let '(r, c) := client_delete K collection_name (collection s) in
    (match r with
     | Return _ =>
         Success ("Collection '" +:+ collection_name +:+ "' deleted")
     | Raise e => Failure ("Error deleting collection: " +:+ e)
     end,
     {| collection := c;
        current_document := current_document s;
        calls := calls s |}).


(** [VectorStore(collection_name=...)], the constructor: it opens the
    collection and prints its count; what it raises is raised again, and
    the store object is then not replaced. *)
Definition open_store (collection_name : string) : M C (exc unit) :=
  fun s =>
    match client_open K collection_name (collection s) with
    | Raise e => (Raise e, s)
    | Return c =>
        let '(_, s') :=
          count X {| collection := c;
                     current_document := current_document s;
                     calls := calls s |} in
        (Return tt, s')
    end.

Definition clear_database (collection_name : string)
  : M C (outcome string) :=
  run! result := delete_collection collection_name in
  fun s1 =>
    let s2 := {| collection := collection s1;
                 current_document := None;
                 calls := calls s1 |} in
    let '(opened, s3) := open_store collection_name s2 in
    match opened with
    | Raise e => (Failure ("Error clearing database: " +:+ e), s3)
    | Return _ => (result, s3)
    end.

End Lifecycle.

(** ** main.py: the request handlers *)

(** A handler returns its body or raises [HTTPException]. *)
Inductive response (A : Type) :=
| OK (body : A)
| HTTPException (status_code : Z) (detail : string).
Arguments OK {A} body.
Arguments HTTPException {A} status_code detail.


Section Handlers.
Context (X : Externals).
Local Abbreviation C := (index_impl X).



End Handlers.

Definition chroma_dropped (distance : string -> string -> Q)
  : coll_state (Chroma.index distance) := @nil Chroma.record.

(** The client of the reference index: deleting the collection drops its
    records, and opening it again under the same name finds it as it is. *)
Definition chroma_client (distance : string -> string -> Q)
  : Client (Chroma.index distance) := {|
  client_delete := fun _ _ => (Return tt, chroma_dropped distance);
  client_open := fun _ s => Return s |}.

(** ** More vocabulary *)

(** [s] holds whitespace only. *)
Fixpoint all_space (s : string) : bool :=
  match s with
  | EmptyString => true
  | String c r => Py.isspace c && all_space r
  end.

(** The id that [add_chunks] gives the chunk at position [i]. *)
Definition stored_id (chunk : gmap string value) (i : nat) : value :=
  if truthy (chunk !! "id") then dict_get chunk "id" (VStr "")
  else if truthy (chunk !! "global_chunk_id") then
    dict_get chunk "global_chunk_id" (VStr "")
  else VStr ("chunk_" +:+ Py.str (Z.of_nat i)).

(** How often a log calls the model, and how often it queries the index. *)
Definition is_invoke (c : call) : bool :=
  match c with
  | Invoke _ => true
  | _ => false
  end.

Definition is_query (c : call) : bool :=
  match c with
  | Query _ _ => true
  | _ => false
  end.

Fixpoint invocations (cs : list call) : nat :=
  match cs with
  | [] => 0
  | c :: rest => (if is_invoke c then 1 else 0) + invocations rest
  end%nat.

Fixpoint queries (cs : list call) : nat :=
  match cs with
  | [] => 0
  | c :: rest => (if is_query c then 1 else 0) + queries rest
  end%nat.

(** The chunks of one page of [chunk_by_pages], stamped with the page
    number and not yet numbered across pages. *)
Definition page_chunks (X : Externals) (chunk_size chunk_overlap : Z)
    (item : Z * string) : list (gmap string value) :=
  if is_blank item.2 then []
  else
    match chunk_text X item.2 chunk_size chunk_overlap
            ("page_" +:+ Py.str item.1) with
    | Success result =>
        map (fun chunk : gmap string value =>
               <["page_number" := VInt item.1]> chunk) (ch_chunks result)
    | Failure _ => []
    end.

(** [s] has no underscore. *)
Fixpoint no_underscore (s : string) : bool :=
  match s with
  | EmptyString => true
  | String c r => negb (Ascii.eqb c "_") && no_underscore r
  end.

(** The first row of every column of a query answer: the hits for the
    one query text that [search] sends. *)
Definition first_rows (results : QueryResult)
  : option (list string * list string * list (gmap string value) * list Q) :=
  match q_ids results, q_documents results, q_metadatas results,
        q_distances results with
  | ids :: _, docs :: _, mds :: _, Some (ds :: _) =>
      Some (ids, docs, mds, ds)
  | _, _, _, _ => None
  end.

(** No distance is smaller than the one before it. *)
Fixpoint ascending (ds : list Q) : bool :=
  match ds with
  | [] => true
  | d :: rest =>
      match rest with
      | [] => true
      | d' :: _ => Qle_bool d d' && ascending rest
      end
  end.

(** [results] answers a request for [n] results as a nearest-neighbour
    index does: [n] ids, documents, metadatas and distances, the closest
    first. *)
Definition closest_first (results : QueryResult) (n : nat) : bool :=
  match first_rows results with
  | Some (ids, docs, mds, ds) =>
      (length ids =? n)%nat && (length docs =? n)%nat
      && (length mds =? n)%nat && (length ds =? n)%nat && ascending ds
  | None => false
  end.

(** Hit [a] is reported at most as far from the query as hit [b]. *)
Definition nearer (a b : hit) : Prop :=
  match hit_distance a, hit_distance b with
  | Some x, Some y => (x <= y)%Q
  | _, _ => False
  end.

(** The hit that [search] makes of one row of the answer. *)
Definition row_hit (row : string * (string * (gmap string value * Q)))
  : hit :=
  {| hit_text := row.2.1; hit_metadata := row.2.2.1; hit_id := row.1;
     hit_distance := Some row.2.2.2 |}.

(** ** More sample data *)

Module Desk.

(** A chunk of a page-aware chunking that has no id of its own, one that
    has neither id, and one that lost its text. *)
Definition numbered : gmap string value :=
  <["global_chunk_id" := VStr "chunk_7"]>
  (<["text" := VStr "Governing law: England and Wales."]>
  (<["page_number" := VInt 4]> ∅)).

Definition untagged : gmap string value :=
  <["text" := VStr "Either party may assign this agreement."]> ∅.

Definition textless : gmap string value :=
  <["id" := VStr "doc_chunk_3"]> (<["source" := VStr "doc"]> ∅).

Definition mixed : list (gmap string value) :=
  [Sample.passage; numbered; untagged].

Definition mixed_documents : list value :=
  [ VStr "The termination notice period is 30 days.";
    VStr "Governing law: England and Wales.";
    VStr "Either party may assign this agreement." ].

Definition mixed_ids : list value :=
  [VStr "doc_chunk_1"; VStr "chunk_7"; VStr "chunk_2"].

(** The pages of the lease as [extract_text_from_pdf] reports them. *)
Definition lease_pages : list (Z * string) :=
  [ (1, "LEASE AGREEMENT between the parties");
    (2, "");
    (3, "The termination notice period is 30 days.") ].

Definition first_page_chunk : gmap string value :=
  <["global_chunk_id" := VStr "chunk_1"]>
  (<["page_number" := VInt 1]>
  (chunk_obj "page_1" 1 0 "LEASE AGREEMENT between the parties")).

Definition third_page_chunk : gmap string value :=
  <["global_chunk_id" := VStr "chunk_2"]>
  (<["page_number" := VInt 3]>
  (chunk_obj "page_3" 1 0 "The termination notice period is 30 days.")).

Definition lease_page_chunking : page_chunking := {|
  pc_chunks := [first_page_chunk; third_page_chunk];
  pc_total_pages := 3;
  pc_total_chunks := 2 |}.

(** The answer to a question asked after the lease was processed. *)
Definition lease_answer : answer := {|
  ans_question := Sample.question;
  ans_answer := "30 days";
  ans_sources :=
    [ {| src_text :=
           "LEASE AGREEMENT between the parties  The termination notice period is 30 days....";
         src_source := VStr "lease.pdf";
         src_page := VInt 0 |} ];
  ans_num_sources := 1 |}.

Definition asked : agent Sample.chroma :=
  (ask_question Sample.pipeline Sample.question 3 Sample.processed).2.

(** A store whose three records lie at the distances 3, 5 and 1 from
    [Sample.question], in the order they were added. *)
Definition shelved : agent Sample.chroma :=
  (add_chunks Sample.pipeline mixed Sample.empty).2.

(** The two records of [shelved] nearest to [Sample.question]. *)
Definition nearest_two : QueryResult := {|
  q_ids := [["chunk_2"; "doc_chunk_1"]];
  q_documents :=
    [[ "Either party may assign this agreement.";
       "The termination notice period is 30 days." ]];
  q_metadatas := [[chunk_metadata untagged; chunk_metadata Sample.passage]];
  q_distances := Some [[(1 # 1)%Q; (3 # 1)%Q]] |}.

End Desk.

(** * Properties *)

(** ** Strings *)

Section PyFacts.
Implicit Types (s cur w : string) (c : ascii).

Lemma str_inj (i j : Z) : Py.str i = Py.str j -> i = j.
Proof.
  unfold Py.str. intros H.
  apply DecimalZ.to_int_inj.
  assert (Some (Z.to_int i) = Some (Z.to_int j)) as E.
  { rewrite <- !NilEmpty.isi. by rewrite H. }
  by injection E.
Qed.

Lemma str_app_nil s : "" +:+ s = s.
Proof. reflexivity. Qed.

Lemma str_app_cons c s1 s2 : String c s1 +:+ s2 = String c (s1 +:+ s2).
Proof. reflexivity. Qed.

Lemma str_app_empty_r s : s +:+ "" = s.
Proof. induction s as [|c s IH]; [done | by rewrite str_app_cons, IH]. Qed.

Lemma str_app_assoc s1 s2 s3 : (s1 +:+ s2) +:+ s3 = s1 +:+ (s2 +:+ s3).
Proof. induction s1 as [|c s1 IH]; [done | by rewrite !str_app_cons, IH]. Qed.

Lemma str_app_snoc s c : s +:+ String c "" <> "".
Proof. destruct s; rewrite ?str_app_cons; discriminate. Qed.

Lemma rstrip_cons_nonspace c s :
  Py.isspace c = false -> Py.rstrip (String c s) = String c (Py.rstrip s).
Proof. intros Hc. simpl. destruct (Py.rstrip s); by rewrite ?Hc. Qed.

Lemma rstrip_cons_nonempty c s :
  Py.rstrip s <> "" -> Py.rstrip (String c s) = String c (Py.rstrip s).
Proof. intros Hs. simpl. by destruct (Py.rstrip s). Qed.

Lemma flush_nonempty cur : cur <> "" -> Py.flush cur = [cur].
Proof. by destruct cur. Qed.

Lemma join_cons sep w l :
  l <> [] -> Py.join sep (w :: l) = w +:+ sep +:+ Py.join sep l.
Proof. by destruct l. Qed.

(** Every word of [split] is non-empty. *)
Lemma split_go_nonempty s :
  forall cur, Forall (fun w => w <> "") (Py.split_go cur s).
Proof.
  induction s as [|c s IH]; intros cur; simpl.
  - destruct cur; constructor; [discriminate | constructor].
  - destruct (Py.isspace c); [|apply IH].
    apply Forall_app. split; [|apply IH].
    destruct cur; constructor; [discriminate | constructor].
Qed.

Lemma join_nonempty sep w l : w <> "" -> Py.join sep (w :: l) <> "".
Proof. destruct w; [done|]. destruct l; cbn [Py.join]; rewrite ?str_app_cons; discriminate. Qed.

Lemma join_split_go_nonempty sep cur s :
  Py.split_go cur s <> [] -> Py.join sep (Py.split_go cur s) <> "".
Proof.
  pose proof (split_go_nonempty s cur) as H.
  destruct (Py.split_go cur s) as [|w l]; [done|]. intros _.
  apply join_nonempty. by inversion H.
Qed.

(** The words of a text, joined by single spaces, written with the
    squeezing of the specification. *)
Lemma join_split_go s :
  (forall cur, cur <> "" ->
     Py.join " " (Py.split_go cur s) = cur +:+ Py.rstrip (Spec.squeeze false s))
  /\ Py.join " " (Py.split_go "" s) = Py.rstrip (Spec.squeeze true s).
Proof.
  induction s as [|c s [IH1 IH2]]; simpl.
  - split; [|done]. intros cur Hcur. rewrite flush_nonempty by done.
    simpl. by rewrite str_app_empty_r.
  - destruct (Py.isspace c) eqn:Hc.
    + split; [|done]. intros cur Hcur. rewrite flush_nonempty by done.
      cbn [app]. destruct (Py.split_go "" s) as [|w l] eqn:Hsp.
      * cbn [Py.join] in *. cbn [Py.rstrip]. rewrite <- IH2. simpl.
        by rewrite str_app_empty_r.
      * rewrite join_cons by done. rewrite IH2.
        rewrite rstrip_cons_nonempty; [done|].
        rewrite <- IH2, <- Hsp. apply join_split_go_nonempty. by rewrite Hsp.
    + split.
      * intros cur Hcur. rewrite IH1 by apply str_app_snoc.
        rewrite rstrip_cons_nonspace by done. by rewrite str_app_assoc.
      * rewrite IH1 by done. by rewrite rstrip_cons_nonspace.
Qed.

Lemma lstrip_squeeze_true s : Py.lstrip (Spec.squeeze true s) = Spec.squeeze true s.
Proof.
  induction s as [|c s IH]; simpl; [done|].
  destruct (Py.isspace c) eqn:Hc; [done|]. simpl. by rewrite Hc.
Qed.

Lemma lstrip_squeeze_false s : Py.lstrip (Spec.squeeze false s) = Spec.squeeze true s.
Proof.
  destruct s as [|c s]; simpl; [done|].
  destruct (Py.isspace c) eqn:Hc; simpl.
  - apply lstrip_squeeze_true.
  - by rewrite Hc.
Qed.

Lemma clean_text_normalize s : clean_text s = Spec.normalize s.
Proof.
  unfold clean_text, Spec.normalize, Py.strip, Spec.collapse_runs, Py.split.
  rewrite lstrip_squeeze_false. apply join_split_go.
Qed.
End PyFacts.

Section SplitFacts.
Implicit Types (s cur w : string) (c : ascii).

Lemma split_go_app_space cur a b :
  Py.split_go cur (a +:+ " " +:+ b) = Py.split_go cur a ++ Py.split b.
Proof.
  change (" " +:+ b) with (String " " b).
  revert cur. induction a as [|c a IH]; intros cur.
  - rewrite str_app_nil. reflexivity.
  - rewrite str_app_cons. cbn [Py.split_go]. destruct (Py.isspace c).
    + by rewrite IH, (assoc_L (++)).
    + apply IH.
Qed.

Lemma split_join l : Py.split (Py.join " " l) = concat (map Py.split l).
Proof.
  induction l as [|w l IH]; [done|].
  destruct l as [|w' l].
  - cbn. by rewrite (right_id_L [] (++)).
  - rewrite join_cons by done. unfold Py.split at 1.
    rewrite split_go_app_space. by rewrite IH.
Qed.

Lemma no_space_snoc cur c :
  no_space cur = true -> Py.isspace c = false ->
  no_space (cur +:+ String c "") = true.
Proof.
  intros Hcur Hc. induction cur as [|d cur IH].
  - rewrite str_app_nil. cbn. by rewrite Hc.
  - rewrite str_app_cons. cbn in *. apply andb_true_iff in Hcur as [-> ?]. auto.
Qed.

Lemma flush_words cur : no_space cur = true -> Forall is_word (Py.flush cur).
Proof.
  intros H. destruct cur; constructor; [|constructor]. by split.
Qed.

Lemma split_go_words s :
  forall cur, no_space cur = true -> Forall is_word (Py.split_go cur s).
Proof.
  induction s as [|c s IH]; intros cur Hcur; cbn [Py.split_go].
  - by apply flush_words.
  - destruct (Py.isspace c) eqn:Hc.
    + apply Forall_app. split; [by apply flush_words | by apply IH].
    + apply IH. by apply no_space_snoc.
Qed.

Lemma split_words s : Forall is_word (Py.split s).
Proof. by apply split_go_words. Qed.

Lemma split_go_no_space w :
  no_space w = true -> forall cur, Py.split_go cur w = Py.flush (cur +:+ w).
Proof.
  induction w as [|c w IH]; intros Hw cur.
  - by rewrite str_app_empty_r.
  - cbn in Hw. apply andb_true_iff in Hw as [Hc Hw].
    apply negb_true_iff in Hc. cbn [Py.split_go]. rewrite Hc.
    rewrite IH by done. by rewrite str_app_assoc.
Qed.

Lemma split_word w : is_word w -> Py.split w = [w].
Proof.
  intros [Hne Hw]. unfold Py.split. rewrite split_go_no_space by done.
  rewrite str_app_nil. by apply flush_nonempty.
Qed.

Lemma split_join_words l : Forall is_word l -> Py.split (Py.join " " l) = l.
Proof.
  intros H. rewrite split_join. induction H as [|w l Hw _ IH]; [done|].
  cbn. by rewrite split_word, IH.
Qed.

(** Cleaning a text keeps its words. *)
Lemma split_clean_text s : Py.split (clean_text s) = Py.split s.
Proof. apply split_join_words, split_words. Qed.

Lemma clean_text_idem s : clean_text (clean_text s) = clean_text s.
Proof. unfold clean_text at 1. by rewrite split_clean_text. Qed.
End SplitFacts.

Section ReadPages.

Lemma read_pages_all_text pages : forall k acc m,
  (read_pages pages k acc m).1 = acc ++ map clean_text pages.
Proof.
  induction pages as [|raw pages IH]; intros k acc m; cbn [read_pages].
  - cbn. by rewrite (right_id_L [] (++)).
  - rewrite IH. cbn. by rewrite <- (assoc_L (++)).
Qed.

Lemma read_pages_page_texts pages : forall k acc m j,
  (read_pages pages k acc m).2 !! j =
    if decide (k < j <= k + Z.of_nat (length pages))
    then clean_text <$> pages !! Z.to_nat (j - k - 1)
    else m !! j.
Proof.
  induction pages as [|raw pages IH]; intros k acc m j; cbn [read_pages].
  - cbn. case_decide; [lia | done].
  - rewrite IH. cbn [length]. repeat case_decide; try lia.
    + replace (Z.to_nat (j - k - 1)) with (S (Z.to_nat (j - (k + 1) - 1))) by lia.
      done.
    + assert (j = k + 1) as -> by lia.
      rewrite lookup_insert_eq. by replace (Z.to_nat (k + 1 - k - 1)) with 0%nat by lia.
    + rewrite lookup_insert_ne by lia. done.
Qed.
End ReadPages.

(** ** The sizing policy *)

Lemma get_optimal_chunk_size_cases text :
  let n := Py.len text in
  (n < 5000 /\ get_optimal_chunk_size text = 500) \/
  (5000 <= n < 20000 /\ get_optimal_chunk_size text = 1000) \/
  (20000 <= n < 100000 /\ get_optimal_chunk_size text = 1500) \/
  (100000 <= n /\ get_optimal_chunk_size text = 2000).
Proof.
  unfold get_optimal_chunk_size. cbv zeta.
  repeat (case_match; [left; split; [lia | done] | right]). lia.
Qed.

(** C3.  [get_optimal_chunk_size] is a step function of the length of the
    text alone: 500 below 5,000 characters, 1,000 from 5,000 and below
    20,000, 1,500 from 20,000 and below 100,000, and 2,000 from 100,000 on.
    Texts of equal length get equal sizes and a longer text never gets a
    smaller size. *)
Theorem get_optimal_chunk_size_step (text : string) :
  (Py.len text < 5000 -> get_optimal_chunk_size text = 500) /\
  (5000 <= Py.len text < 20000 -> get_optimal_chunk_size text = 1000) /\
  (20000 <= Py.len text < 100000 -> get_optimal_chunk_size text = 1500) /\
  (100000 <= Py.len text -> get_optimal_chunk_size text = 2000) /\
  (forall text' : string,
     Py.len text = Py.len text' ->
     get_optimal_chunk_size text = get_optimal_chunk_size text') /\
  (forall text' : string,
     Py.len text <= Py.len text' ->
     get_optimal_chunk_size text <= get_optimal_chunk_size text').
Proof.
  pose proof (get_optimal_chunk_size_cases text) as H. cbv zeta in H.
  repeat split; try (intros; lia).
  - intros text' Hlen. pose proof (get_optimal_chunk_size_cases text') as H'.
    cbv zeta in H'. lia.
  - intros text' Hlen. pose proof (get_optimal_chunk_size_cases text') as H'.
    cbv zeta in H'. lia.
Qed.

Lemma get_optimal_chunk_size_step_witness :
  get_optimal_chunk_size (Sample.text_of_length 4999) = 500 /\
  get_optimal_chunk_size (Sample.text_of_length 5000) = 1000 /\
  get_optimal_chunk_size (Sample.text_of_length 19999) = 1000 /\
  get_optimal_chunk_size (Sample.text_of_length 20000) = 1500 /\
  get_optimal_chunk_size (Sample.text_of_length 100000) = 2000 /\
  get_optimal_chunk_size (Sample.text_of_length 4999)
    <= get_optimal_chunk_size (Sample.text_of_length 5000).
Proof.
  destruct (get_optimal_chunk_size_step (Sample.text_of_length 4999))
    as (H1 & _ & _ & _ & _ & H6).
  destruct (get_optimal_chunk_size_step (Sample.text_of_length 5000))
    as (_ & H2 & _).
  destruct (get_optimal_chunk_size_step (Sample.text_of_length 19999))
    as (_ & H2' & _).
  destruct (get_optimal_chunk_size_step (Sample.text_of_length 20000))
    as (_ & _ & H3 & _).
  destruct (get_optimal_chunk_size_step (Sample.text_of_length 100000))
    as (_ & _ & _ & H4 & _).
  split_and!.
  - apply H1. vm_compute; intuition congruence.
  - apply H2. vm_compute; intuition congruence.
  - apply H2'. vm_compute; intuition congruence.
  - apply H3. vm_compute; intuition congruence.
  - apply H4. vm_compute; intuition congruence.
  - apply H6. vm_compute; intuition congruence.
Defined.

(** ** Chunk identity *)


Section ChunkFacts.
Context (X : Externals).

Lemma chunk_obj_id source_name total i chunk :
  chunk_obj source_name total i chunk !! "id"
  = Some (VStr (source_name +:+ "_chunk_" +:+ Py.str (Z.of_nat i + 1))).
Proof. unfold chunk_obj. by dict_lookup. Qed.

Lemma chunk_obj_text source_name total i chunk :
  chunk_obj source_name total i chunk !! "text" = Some (VStr chunk).
Proof. unfold chunk_obj. by dict_lookup. Qed.

Lemma chunk_obj_chunk_index source_name total i chunk :
  chunk_obj source_name total i chunk !! "chunk_index"
  = Some (VInt (Z.of_nat i + 1)).
Proof. unfold chunk_obj. by dict_lookup. Qed.

Lemma chunk_obj_total_chunks source_name total i chunk :
  chunk_obj source_name total i chunk !! "total_chunks" = Some (VInt total).
Proof. unfold chunk_obj. by dict_lookup. Qed.

Lemma chunk_id_inj source_name (i j : nat) :
  source_name +:+ "_chunk_" +:+ Py.str (Z.of_nat i + 1)
  = source_name +:+ "_chunk_" +:+ Py.str (Z.of_nat j + 1) ->
  i = j.
Proof.
  intros H. apply (inj (String.app source_name)) in H.
  apply (inj (String.app "_chunk_")) in H. apply str_inj in H. lia.
Qed.

Lemma chunk_text_success text chunk_size chunk_overlap source_name r :
  chunk_text X text chunk_size chunk_overlap source_name = Success r ->
  exists segments,
    split_text X chunk_size chunk_overlap text = Return segments /\
    ch_chunks r
    = imap (chunk_obj source_name (Z.of_nat (length segments))) segments.
Proof.
  unfold chunk_text. destruct (is_blank text); [done|].
  destruct (split_text X chunk_size chunk_overlap text) as [segments|e];
    [|done].
  intros [= <-]. by exists segments.
Qed.

(** C6.  For every successful [chunk_text] over the segments the splitter
    returned, there are as many passages as segments and the passage at
    position i (from 0, in the order of the text) carries the i-th
    segment, the id "{source_name}_chunk_{i+1}", chunk_index i+1 and
    total_chunks equal to the number of passages; the ids of one call
    are pairwise distinct. *)
Theorem chunk_text_identity text chunk_size chunk_overlap source_name r :
  chunk_text X text chunk_size chunk_overlap source_name = Success r ->
  exists segments : list string,
    split_text X chunk_size chunk_overlap text = Return segments /\
    length (ch_chunks r) = length segments /\
    (forall (i : nat) (segment : string),
       segments !! i = Some segment ->
       exists chunk : gmap string value,
         ch_chunks r !! i = Some chunk /\
         chunk !! "text" = Some (VStr segment) /\
         chunk !! "id"
         = Some (VStr (source_name +:+ "_chunk_"
                       +:+ Py.str (Z.of_nat i + 1))) /\
         chunk !! "chunk_index" = Some (VInt (Z.of_nat i + 1)) /\
         chunk !! "total_chunks"
         = Some (VInt (Z.of_nat (length (ch_chunks r))))) /\
    NoDup (map (fun chunk : gmap string value => chunk !! "id")
             (ch_chunks r)).
Proof.
  intros (segments & Hsplit & ->)%chunk_text_success.
  exists segments. rewrite length_imap. split_and!; [done..| |].
  - intros i segment Hi. eexists. rewrite list_lookup_imap, Hi.
    split; [reflexivity|].
    by rewrite chunk_obj_id, chunk_obj_text, chunk_obj_chunk_index,
      chunk_obj_total_chunks.
  - apply NoDup_alt. intros i j x.
    rewrite !list_lookup_fmap, !list_lookup_imap.
    destruct (segments !! i) as [a|]; [|done].
    destruct (segments !! j) as [b|]; [|done].
    cbn. rewrite !chunk_obj_id. intros [= <-] [= H].
    symmetry. by apply chunk_id_inj in H.
Qed.

End ChunkFacts.

Lemma chunk_text_identity_witness :
  exists segments : list string,
    Sample.hard_cut 5 2 "LEASE AGREEMENT" = Return segments /\
    length (ch_chunks Sample.lease_chunking) = length segments /\
    (forall (i : nat) (segment : string),
       segments !! i = Some segment ->
       exists chunk : gmap string value,
         ch_chunks Sample.lease_chunking !! i = Some chunk /\
         chunk !! "text" = Some (VStr segment) /\
         chunk !! "id"
         = Some (VStr ("lease.pdf" +:+ "_chunk_" +:+ Py.str (Z.of_nat i + 1))) /\
         chunk !! "chunk_index" = Some (VInt (Z.of_nat i + 1)) /\
         chunk !! "total_chunks"
         = Some (VInt (Z.of_nat (length (ch_chunks Sample.lease_chunking))))) /\
    NoDup (map (fun chunk : gmap string value => chunk !! "id")
             (ch_chunks Sample.lease_chunking)).
Proof.
  apply (chunk_text_identity Sample.pipeline "LEASE AGREEMENT" 5 2 "lease.pdf").
  vm_compute. reflexivity.
Defined.

Section ExtractFacts.
Context (X : Externals).

(** C8.  For every successful extraction over the pages the reader
    returned: the page count is the number of pages; the text is the
    normalised page texts, in page order, joined by single spaces, where
    normalising collapses each run of whitespace to one space and trims
    both ends; [page_texts] maps each page number from 1 to N to the
    normalised text of that page and holds nothing else; and
    [total_words] counts the whitespace-delimited tokens of the text,
    which are the tokens of the pages in page order. *)
Theorem extract_text_from_pdf_normalizes pdf_path e :
  extract_text_from_pdf X pdf_path = Success e ->
  exists pages : list string,
    PdfReader X pdf_path = Return pages /\
    md_num_pages (ex_metadata e) = Z.of_nat (length pages) /\
    ex_text e = Py.join " " (map Spec.normalize pages) /\
    (forall n : Z,
       ex_page_texts e !! n
       = if decide (1 <= n <= Z.of_nat (length pages))
         then Spec.normalize <$> pages !! Z.to_nat (n - 1)
         else None) /\
    md_total_words (ex_metadata e)
    = Z.of_nat (length (Py.split (ex_text e))) /\
    Py.split (ex_text e) = concat (map Py.split pages).
Proof.
  unfold extract_text_from_pdf.
  destruct (negb (path_exists X pdf_path)); [done|].
  destruct (negb (Py.endswith (Py.lower pdf_path) ".pdf")); [done|].
  destruct (PdfReader X pdf_path) as [pages|msg]; [|done].
  pose proof (read_pages_all_text pages 0 [] ∅) as Hall.
  pose proof (read_pages_page_texts pages 0 [] ∅) as Hmap.
  destruct (read_pages pages 0 [] ∅) as [all_text page_texts].
  cbn in Hall, Hmap. subst all_text.
  intros [= <-]. exists pages. cbn. split_and!; [done..| | |done|].
  - f_equal. apply map_ext. intros raw. apply clean_text_normalize.
  - intros n. rewrite Hmap, lookup_empty.
    replace (n - 0 - 1) with (n - 1) by lia.
    repeat case_decide; try lia; [|done].
    destruct (pages !! Z.to_nat (n - 1)); cbn; [|done].
    by rewrite clean_text_normalize.
  - rewrite split_join, map_map. f_equal. apply map_ext. intros raw.
    apply split_clean_text.
Qed.
End ExtractFacts.

Lemma extract_text_from_pdf_normalizes_witness :
  exists pages : list string,
    Sample.reader Sample.files "documents/lease.pdf" = Return pages /\
    md_num_pages (ex_metadata Sample.lease_extraction) = Z.of_nat (length pages) /\
    ex_text Sample.lease_extraction = Py.join " " (map Spec.normalize pages) /\
    (forall n : Z,
       ex_page_texts Sample.lease_extraction !! n
       = if decide (1 <= n <= Z.of_nat (length pages))
         then Spec.normalize <$> pages !! Z.to_nat (n - 1)
         else None) /\
    md_total_words (ex_metadata Sample.lease_extraction)
    = Z.of_nat (length (Py.split (ex_text Sample.lease_extraction))) /\
    Py.split (ex_text Sample.lease_extraction) = concat (map Py.split pages).
Proof.
  apply (extract_text_from_pdf_normalizes Sample.pipeline "documents/lease.pdf").
  vm_compute. reflexivity.
Defined.

(** ** The agent's state across a method call *)

Section After.
Context {C : Collection}.
Implicit Types (s : agent C).

Lemma after_nil s : after s (collection s) [] = s.
Proof. destruct s. unfold after. cbn. by rewrite (right_id_L [] (++)). Qed.

Lemma after_after s c cs c' cs' :
  after (after s c cs) c' cs' = after s c' (cs ++ cs').
Proof. unfold after. cbn. by rewrite (assoc_L (++)). Qed.

Lemma log_after s c : log c s = after s (collection s) [c].
Proof. reflexivity. Qed.
End After.

Section Frames.
Context (X : Externals).
Local Abbreviation C := (index_impl X).
Implicit Types (s : agent C).

(** [search] reads the collection and only extends the log. *)
Lemma search_frame query_text top_k s :
  exists cs,
    search X query_text top_k s
    = ((search X query_text top_k (quiet s)).1, after s (collection s) cs)
    /\ calls (search X query_text top_k (quiet s)).2 = cs.
Proof.
  unfold search. destruct (is_blank query_text).
  { exists []. by rewrite after_nil. }
  unfold bind, count, query, ret. cbn.
  destruct (coll_count C (collection s) =? 0).
  { by exists [Count]. }
  exists [Count; Count;
          Query query_text (Z.min top_k (coll_count C (collection s)))].
  rewrite !log_after, !after_after. cbn.
  destruct (coll_query C query_text
              (Z.min top_k (coll_count C (collection s))) (collection s))
    as [results|e]; [destruct (format_results results)|]; done.
Qed.

Lemma ask_question_frame question top_k s :
  exists cs,
    ask_question X question top_k s
    = ((ask_question X question top_k (quiet s)).1, after s (collection s) cs)
    /\ calls (ask_question X question top_k (quiet s)).2 = cs.
Proof.
  unfold ask_question, bind.
  destruct (search_frame question top_k s) as (cs & -> & Hcs).
  destruct (search X question top_k (quiet s)) as [[found|e] s1] eqn:Hs; cbn in *.
  - destruct (sr_count found =? 0); [by exists cs|].
    unfold invoke, ret. cbn.
    destruct (llm_invoke X _); cbn; exists (cs ++ [Invoke (build_prompt (build_context (sr_results found)) question)]);
      rewrite Hcs; by rewrite ?log_after, ?after_after.
  - by exists cs.
Qed.

Lemma ask_question_result question top_k s :
  (ask_question X question top_k s).1
  = (ask_question X question top_k (quiet s)).1.
Proof. by destruct (ask_question_frame question top_k s) as (cs & -> & _). Qed.

Lemma ask_question_state question top_k s :
  (ask_question X question top_k s).2
  = after s (collection s) (calls (ask_question X question top_k (quiet s)).2).
Proof. by destruct (ask_question_frame question top_k s) as (cs & -> & ->). Qed.

Lemma add_chunks_current_document chunks s :
  current_document (add_chunks X chunks s).2 = current_document s.
Proof.
  unfold add_chunks. destruct chunks as [|chunk rest]; [done|].
  destruct (prepare _ _ _ _) as [[[documents metadatas] ids]|e]; [|done].
  unfold bind, add, count, ret.
  destruct (coll_add C documents metadatas ids (collection s)) as [[[]|e] c'];
    done.
Qed.
End Frames.

(** ** Failure kinds of a question *)

Section AskFacts.
Context (X : Externals).
Local Abbreviation C := (index_impl X).
Implicit Types (s : agent C).

Lemma search_blank query_text top_k s :
  is_blank query_text = true ->
  search X query_text top_k s = (Failure EmptyQuery, s).
Proof. unfold search. by intros ->. Qed.

Lemma search_empty_store query_text top_k s :
  is_blank query_text = false ->
  coll_count C (collection s) = 0 ->
  search X query_text top_k s
  = (Failure EmptyStore, after s (collection s) [Count]).
Proof.
  unfold search, bind, count, ret. intros -> ->. reflexivity.
Qed.

Lemma search_success_nonempty_store query_text top_k s found s1 :
  search X query_text top_k s = (Success found, s1) ->
  is_blank query_text = false /\ coll_count C (collection s) <> 0.
Proof.
  unfold search, bind, count, ret.
  destruct (is_blank query_text); [done|]. cbn.
  destruct (coll_count C (collection s) =? 0) eqn:Hn; [done|].
  intros _. split; [done | lia].
Qed.

(** C5 (as amended).  A question fails in a fixed order of checks.  A
    blank question fails with EmptyQuery and the agent is left as it
    was.  For any other question: when the store holds zero entries the
    call fails with EmptyStore and the only call issued is the count, so
    no nearest-neighbour query is made; when the search succeeds with
    zero hits, the store is not empty and the call fails with
    NoRelevantInformation, a message different from EmptyStore. *)
Theorem ask_question_failure_kinds question top_k s :
  (is_blank question = true ->
     ask_question X question top_k s = (Failure EmptyQuery, s)) /\
  (is_blank question = false ->
     (coll_count C (collection s) = 0 ->
        ask_question X question top_k s
        = (Failure EmptyStore, after s (collection s) [Count])) /\
     (forall found s1,
        search X question top_k s = (Success found, s1) ->
        sr_count found = 0 ->
        coll_count C (collection s) <> 0 /\
        ask_question X question top_k s
        = (Failure NoRelevantInformation, s1))) /\
  EmptyStore <> NoRelevantInformation.
Proof.
  split_and!; [| |done].
  - intros Hq. unfold ask_question, bind. by rewrite search_blank.
  - intros Hq. split.
    + intros Hn. unfold ask_question, bind.
      by rewrite search_empty_store.
    + intros found s1 Hs Hc. split.
      * by apply search_success_nonempty_store in Hs as [_ ?].
      * unfold ask_question, bind. rewrite Hs, Hc. reflexivity.
Qed.
End AskFacts.

Lemma ask_question_failure_kinds_witness :
  ask_question Sample.pipeline "  " 3 Sample.empty
  = (Failure EmptyQuery, Sample.empty) /\
  ask_question Sample.pipeline "What is the notice period?" 3 Sample.empty
  = (Failure EmptyStore, after Sample.empty [] [Count]) /\
  ask_question Sample.silent_externals "What is the notice period?" 3
    (Sample.fresh Sample.silent_index tt)
  = (Failure NoRelevantInformation,
     after (Sample.fresh Sample.silent_index tt) tt
       [Count; Count; Query "What is the notice period?" 1]).
Proof.
  split_and!.
  - apply (proj1 (ask_question_failure_kinds Sample.pipeline "  " 3
                    Sample.empty)).
    vm_compute. reflexivity.
  - refine (proj1 (proj1 (proj2 (ask_question_failure_kinds Sample.pipeline
                     "What is the notice period?" 3 Sample.empty)) _) _);
      vm_compute; reflexivity.
  - refine (proj2 (proj2 (proj1 (proj2 (ask_question_failure_kinds
                     Sample.silent_externals "What is the notice period?" 3
                     (Sample.fresh Sample.silent_index tt))) _)
                     {| sr_query := "What is the notice period?";
                        sr_results := []; sr_count := 0 |} _ _ _));
      vm_compute; reflexivity.
Defined.

Lemma blank_question_on_empty_store_counterexample :
  ~ (forall (X : Externals) (question : string) (top_k : Z)
            (s : agent (index_impl X)),
       coll_count (index_impl X) (collection s) = 0 ->
       (ask_question X question top_k s).1 = Failure EmptyStore).
Proof.
  intros H.
  specialize (H Sample.pipeline "  " 3 Sample.empty).
  vm_compute in H. specialize (H eq_refl). discriminate H.
Qed.

(** ** Rank order from the index to the citations *)

Section FormatFacts.


End FormatFacts.

Section RankFacts.
Context (X : Externals).
Local Abbreviation C := (index_impl X).
Implicit Types (s : agent C).

Lemma search_success query_text top_k s found s1 :
  search X query_text top_k s = (Success found, s1) ->
  exists results,
    coll_query C query_text (Z.min top_k (coll_count C (collection s)))
      (collection s) = Return results /\
    format_results results = Return (sr_results found) /\
    sr_count found = Z.of_nat (length (sr_results found)) /\
    s1 = after s (collection s)
           [Count; Count;
            Query query_text (Z.min top_k (coll_count C (collection s)))].
Proof.
  unfold search, bind, count, query, ret.
  destruct (is_blank query_text); [done|]. cbn.
  destruct (coll_count C (collection s) =? 0); cbn; [done|].
  destruct (coll_query C query_text _ (collection s)) as [results|e];
    cbn; [|done].
  destruct (format_results results) as [hits|e] eqn:Hf; cbn; [|done].
  intros [= <- <-]. exists results. cbn.
  by rewrite !log_after, !after_after.
Qed.

(** Whatever the index answers, a successful search counts at least
    zero hits, so it cannot count [min(top_k, n)] of them when [top_k]
    is negative. *)
Lemma search_negative_top_k query_text top_k s found s1 :
  top_k < 0 ->
  search X query_text top_k s = (Success found, s1) ->
  sr_count found <> Z.min top_k (coll_count C (collection s)).
Proof.
  intros Hk (results & _ & _ & Hc & _)%search_success. lia.
Qed.

End RankFacts.

(** ** Document ingestion and clause extraction *)

Section ProcessFacts.
Context (X : Externals).
Local Abbreviation C := (index_impl X).
Implicit Types (s : agent C).

(** C7.  [process_document] runs extraction, chunking and storage in that
    order and stops at the first stage that fails.  A failed extraction
    gives "PDF extraction failed: ..." and leaves the agent untouched; a
    failed chunking of the extracted text, at the adaptive size and
    overlap 200, gives "Chunking failed: ..." and leaves the agent
    untouched; a failed storage of the chunks gives
    "Vector storage failed: ..." and keeps the current document.  Only
    when all three succeed is the current document replaced by the new
    summary, which is also returned. *)
Theorem process_document_stages pdf_path s :
  (forall e : string,
     extract_text_from_pdf X pdf_path = Failure e ->
     process_document X pdf_path s
     = (Failure ("PDF extraction failed: " +:+ e), s)) /\
  (forall ex : extraction,
     extract_text_from_pdf X pdf_path = Success ex ->
     let size := get_optimal_chunk_size (ex_text ex) in
     let chunked :=
       chunk_text X (ex_text ex) size 200 (md_filename (ex_metadata ex)) in
     (forall e : string,
        chunked = Failure e ->
        process_document X pdf_path s
        = (Failure ("Chunking failed: " +:+ e), s)) /\
     (forall ch : chunking,
        chunked = Success ch ->
        let stored := add_chunks X (ch_chunks ch) s in
        (forall e : string,
           stored.1 = Failure e ->
           process_document X pdf_path s
           = (Failure ("Vector storage failed: " +:+ e), stored.2)
           /\ current_document stored.2 = current_document s) /\
        (forall r : add_result,
           stored.1 = Success r ->
           let info := {|
             di_filename := md_filename (ex_metadata ex);
             di_num_pages := md_num_pages (ex_metadata ex);
             di_total_words := md_total_words (ex_metadata ex);
             di_num_chunks := Z.of_nat (length (ch_chunks ch));
             di_chunk_size := size |} in
           process_document X pdf_path s
           = (Success ("Document processed successfully!", info),
              {| collection := collection stored.2;
                 current_document := Some info;
                 calls := calls stored.2 |})))).
Proof.
  unfold process_document. split.
  - by intros e ->.
  - intros ex Hex. rewrite Hex. cbv zeta. split.
    + by intros e ->.
    + intros ch ->. unfold bind. split.
      * intros e He.
        rewrite <- (add_chunks_current_document X (ch_chunks ch) s).
        destruct (add_chunks X (ch_chunks ch) s) as [r s1].
        cbn in He. by subst r.
      * intros r Hr.
        destruct (add_chunks X (ch_chunks ch) s) as [r1 s1].
        cbn in Hr. by subst r1.
Qed.

(** C9.  Whenever [process_document] fails, at whatever stage, the
    current-document summary after the call is the one held before. *)
Theorem process_document_keeps_current_document pdf_path s e s' :
  process_document X pdf_path s = (Failure e, s') ->
  current_document s' = current_document s.
Proof.
  unfold process_document.
  destruct (extract_text_from_pdf X pdf_path) as [ex|e1]; [|by intros [= _ <-]].
  destruct (chunk_text X _ _ _ _) as [ch|e2]; [|by intros [= _ <-]].
  unfold bind.
  pose proof (add_chunks_current_document X (ch_chunks ch) s) as Hdoc.
  destruct (add_chunks X (ch_chunks ch) s) as [[r|e3] s1]; [done|].
  by intros [= _ <-].
Qed.
End ProcessFacts.

Section ClauseFacts.
Context (X : Externals).
Local Abbreviation C := (index_impl X).
Implicit Types (s : agent C).

Lemma quiet_after s cs : quiet (after s (collection s) cs) = quiet s.
Proof. reflexivity. Qed.

Lemma collect_clauses_spec topics : forall results s,
  collect_clauses X topics results s
  = (foldl (clause_step X s) results topics,
     after s (collection s) (concat (map (clause_calls X s) topics))).
Proof.
  induction topics as [|topic topics IH]; intros results s.
  - cbn. by rewrite after_nil.
  - cbn [collect_clauses]. unfold bind.
    destruct (ask_question_frame X (topic_question topic) 2 s)
      as (cs & -> & <-).
    cbn [foldl map concat]. unfold clause_step at 2, clause_calls at 2.
    destruct (ask_question X (topic_question topic) 2 (quiet s)).1
      as [a|e]; cbn [answer_text]; rewrite IH; cbn [collection];
      rewrite after_after; reflexivity.
Qed.

Lemma foldl_clause_step_lookup s topics : forall acc topic,
  foldl (clause_step X s) acc topics !! topic
  = match (if decide (topic ∈ topics)
           then answer_text
                  (ask_question X (topic_question topic) 2 (quiet s)).1
           else None) with
    | Some text => Some text
    | None => acc !! topic
    end.
Proof.
  induction topics as [|t topics IH]; intros acc topic; cbn [foldl].
  - by rewrite decide_False by apply not_elem_of_nil.
  - rewrite IH.
    assert (clause_step X s acc t !! topic
            = match (if decide (topic = t)
                     then answer_text
                            (ask_question X (topic_question topic) 2
                               (quiet s)).1
                     else None) with
              | Some text => Some text
              | None => acc !! topic
              end) as ->.
    { unfold clause_step. destruct (decide (topic = t)) as [->|Hne].
      - destruct (answer_text _); [by rewrite lookup_insert_eq | done].
      - destruct (answer_text _); [by rewrite lookup_insert_ne | done]. }
    destruct (decide (topic ∈ t :: topics)) as [Hc|Hc];
      destruct (decide (topic ∈ topics)) as [Hin|Hin];
      destruct (decide (topic = t)) as [Heq|Hne];
      rewrite ?elem_of_cons in Hc; try tauto; try done.
    by destruct (answer_text _).
Qed.

(** C10.  [extract_key_clauses] always succeeds.  It issues, for the six
    fixed topics in order, the calls of one question per topic with
    top_k = 2; the returned mapping holds exactly the topics whose
    question succeeded, each with its answer; and when every topic fails
    the mapping is empty. *)
Theorem extract_key_clauses_partial s :
  exists clauses : gmap string string,
    extract_key_clauses X s
    = (Success clauses,
       after s (collection s)
         (concat
            (map (fun topic : string =>
                    calls (ask_question X
                             ("What does the document say about "
                              +:+ topic +:+ "?") 2 (quiet s)).2)
               [ "payment terms"; "termination clause"; "confidentiality";
                 "liability"; "duration of contract";
                 "dispute resolution" ]))) /\
    (forall topic : string,
       clauses !! topic
       = if decide (topic ∈ key_topics)
         then answer_text
                (ask_question X
                   ("What does the document say about " +:+ topic +:+ "?")
                   2 s).1
         else None) /\
    ((forall topic : string,
        topic ∈ key_topics ->
        is_success (ask_question X (topic_question topic) 2 s).1 = false) ->
     clauses = ∅).
Proof.
  exists (foldl (clause_step X s) ∅ key_topics).
  assert (forall topic : string,
    foldl (clause_step X s) ∅ key_topics !! topic
    = if decide (topic ∈ key_topics)
      then answer_text (ask_question X (topic_question topic) 2 s).1
      else None) as Hlookup.
  { intros topic. rewrite foldl_clause_step_lookup, lookup_empty.
    rewrite (ask_question_result X (topic_question topic) 2 s).
    destruct (decide (topic ∈ key_topics)); [|done].
    by destruct (answer_text _). }
  split_and!.
  - unfold extract_key_clauses, bind, ret.
    by rewrite collect_clauses_spec.
  - apply Hlookup.
  - intros Hfail. apply map_eq. intros topic.
    rewrite Hlookup, lookup_empty. case_decide as Hin; [|done].
    specialize (Hfail topic Hin).
    by destruct (ask_question X (topic_question topic) 2 s).1.
Qed.
End ClauseFacts.

(** ** The adapter on the reference index *)

Section ChromaAdd.
Implicit Types (s : list Chroma.record) (r : Chroma.record).

Lemma has_id_app s1 s2 i :
  Chroma.has_id (s1 ++ s2) i = Chroma.has_id s1 i || Chroma.has_id s2 i.
Proof. apply existsb_app. Qed.

Lemma has_id_add_one s r i :
  Chroma.has_id s i = true -> Chroma.has_id (Chroma.add_one s r) i = true.
Proof.
  intros H. unfold Chroma.add_one. destruct (Chroma.has_id s (Chroma.rec_id r)); [done|].
  by rewrite has_id_app, H.
Qed.

Lemma has_id_add_one_self s r :
  Chroma.has_id (Chroma.add_one s r) (Chroma.rec_id r) = true.
Proof.
  unfold Chroma.add_one. destruct (Chroma.has_id s (Chroma.rec_id r)) eqn:H; [done|].
  rewrite has_id_app. cbn. rewrite String.eqb_refl. by rewrite orb_true_r.
Qed.

Lemma has_id_foldl recs : forall s i,
  Chroma.has_id s i = true -> Chroma.has_id (foldl Chroma.add_one s recs) i = true.
Proof.
  induction recs as [|r recs IH]; intros s i H; cbn; [done|].
  by apply IH, has_id_add_one.
Qed.

(** Adding keeps what is stored and appends only records with new ids. *)
Lemma foldl_add_one_extends recs : forall s,
  exists extra,
    foldl Chroma.add_one s recs = s ++ extra /\
    Forall (fun r => Chroma.has_id s (Chroma.rec_id r) = false) extra.
Proof.
  induction recs as [|r recs IH]; intros s; cbn.
  - exists []. by rewrite (right_id_L [] (++)).
  - unfold Chroma.add_one at 2. destruct (Chroma.has_id s (Chroma.rec_id r)) eqn:Hr; [apply IH|].
    destruct (IH (s ++ [r])) as (extra & -> & Hextra).
    exists (r :: extra). rewrite <- (assoc_L (++)). split; [done|].
    constructor; [done|].
    eapply Forall_impl; [exact Hextra|]. cbn. intros r'.
    rewrite has_id_app. by intros [? _]%orb_false_iff.
Qed.

Lemma foldl_add_one_present recs : forall s,
  Forall (fun r => Chroma.has_id (foldl Chroma.add_one s recs) (Chroma.rec_id r) = true) recs.
Proof.
  induction recs as [|r recs IH]; intros s; cbn; constructor.
  - apply has_id_foldl, has_id_add_one_self.
  - apply IH.
Qed.

Lemma foldl_add_one_known recs : forall s,
  Forall (fun r => Chroma.has_id s (Chroma.rec_id r) = true) recs ->
  foldl Chroma.add_one s recs = s.
Proof.
  induction recs as [|r recs IH]; intros s H; cbn; [done|].
  inversion H as [|? ? Hr Hrest]; subst.
  unfold Chroma.add_one at 2. rewrite Hr. by apply IH.
Qed.

Lemma add_extends documents metadatas ids s :
  exists extra,
    (Chroma.add documents metadatas ids s).2 = s ++ extra /\
    Forall (fun r => Chroma.has_id s (Chroma.rec_id r) = false) extra.
Proof.
  assert (exists extra, s = s ++ extra /\
            Forall (fun r => Chroma.has_id s (Chroma.rec_id r) = false) extra) as Hsame.
  { exists []. by rewrite (right_id_L [] (++)). }
  unfold Chroma.add. destruct (mapM Chroma.as_str ids) as [ids'|]; [|done].
  destruct (mapM Chroma.as_str documents) as [docs'|]; [|done].
  destruct (negb _); [done|]. destruct (negb _); [done|].
  apply foldl_add_one_extends.
Qed.

Lemma lookup_app_known s extra i r :
  Chroma.lookup s i = Some r -> Chroma.lookup (s ++ extra) i = Some r.
Proof.
  unfold Chroma.lookup. induction s as [|x s IH]; cbn; [done|].
  by destruct (String.eqb (Chroma.rec_id x) i).
Qed.

(** A batch that is added again changes nothing. *)
Lemma add_again documents metadatas ids s :
  Chroma.add documents metadatas ids (Chroma.add documents metadatas ids s).2
  = Chroma.add documents metadatas ids s.
Proof.
  unfold Chroma.add. destruct (mapM Chroma.as_str ids) as [ids'|]; [|done].
  destruct (mapM Chroma.as_str documents) as [docs'|]; [|done].
  destruct (negb _); [done|]. destruct (negb _); [done|].
  cbn. f_equal. apply foldl_add_one_known, foldl_add_one_present.
Qed.
End ChromaAdd.

Section ChromaStore.
Context (distance : string -> string -> Q) (X0 : Externals).
Local Abbreviation X := (on_chroma distance X0).
Implicit Types (s : agent (Chroma.index distance)).

(** C1 (as amended).  On the reference index, an ingest keeps every
    stored record as it is and appends records only for ids the store
    did not hold: a passage whose id is already present adds no entry
    and leaves the stored text and metadata unchanged.  Ingesting the
    same passage list a second time leaves the collection, its entry
    count and the returned result as they were after the first ingest. *)
Theorem add_chunks_first_write_wins chunks s :
  let s1 := (add_chunks X chunks s).2 in
  let s2 := (add_chunks X chunks s1).2 in
  (exists extra : list Chroma.record,
     collection s1 = collection s ++ extra /\
     Forall (fun r => Chroma.has_id (collection s) (Chroma.rec_id r) = false)
       extra) /\
  (forall (i : string) (r : Chroma.record),
     Chroma.lookup (collection s) i = Some r ->
     Chroma.lookup (collection s1) i = Some r) /\
  collection s2 = collection s1 /\
  Chroma.count (collection s2) = Chroma.count (collection s1) /\
  (add_chunks X chunks s1).1 = (add_chunks X chunks s).1.
Proof.
  cbv zeta.
  assert (exists extra : list Chroma.record,
            collection (add_chunks X chunks s).2 = collection s ++ extra /\
            Forall (fun r => Chroma.has_id (collection s) (Chroma.rec_id r)
                             = false) extra) as Hextends.
  { assert (exists extra : list Chroma.record,
              collection s = collection s ++ extra /\
              Forall (fun r => Chroma.has_id (collection s) (Chroma.rec_id r)
                               = false) extra) as Hsame.
    { exists []. by rewrite (right_id_L [] (++)). }
    unfold add_chunks. destruct chunks as [|chunk rest]; [done|].
    destruct (prepare _ _ _ _) as [[[documents metadatas] ids]|e]; [|done].
    unfold bind, add, count, ret. cbn.
    pose proof (add_extends documents metadatas ids (collection s)) as Hext.
    by destruct (Chroma.add documents metadatas ids (collection s))
      as [[[]|e] c1]. }
  assert (collection (add_chunks X chunks (add_chunks X chunks s).2).2
          = collection (add_chunks X chunks s).2 /\
          (add_chunks X chunks (add_chunks X chunks s).2).1
          = (add_chunks X chunks s).1) as [Hagain Hresult].
  { unfold add_chunks. destruct chunks as [|chunk rest]; [done|].
    destruct (prepare _ _ _ _) as [[[documents metadatas] ids]|e]; [|done].
    unfold bind, add, count, ret. cbn.
    pose proof (add_again documents metadatas ids (collection s)) as Hadd.
    destruct (Chroma.add documents metadatas ids (collection s))
      as [[[]|e] c1]; cbn in *; by rewrite Hadd. }
  split_and!; [done| |done| |done].
  - destruct Hextends as (extra & -> & _). intros i r.
    apply lookup_app_known.
  - by rewrite Hagain.
Qed.
End ChromaStore.

Section Nearest.
Context (distance : string -> string -> Q) (q : string).
Implicit Types (s l : list Chroma.record) (r : Chroma.record).

Lemma closer_trans a b c :
  closer distance q a b -> closer distance q b c -> closer distance q a c.
Proof. unfold closer. apply Qle_trans. Qed.

Lemma insert_by_perm r l : Chroma.insert_by distance q r l ≡ₚ r :: l.
Proof.
  induction l as [|x l IH]; cbn; [done|].
  destruct (Qle_bool _ _); [done|]. rewrite IH. apply Permutation_swap.
Qed.

Lemma nearest_perm s : Chroma.nearest distance q s ≡ₚ s.
Proof.
  induction s as [|r s IH]; cbn; [done|].
  unfold Chroma.nearest in IH. by rewrite insert_by_perm, IH.
Qed.

Lemma insert_by_sorted r l :
  StronglySorted (closer distance q) l ->
  StronglySorted (closer distance q) (Chroma.insert_by distance q r l).
Proof.
  induction 1 as [|x l Hsorted IH Hx]; cbn.
  - repeat constructor.
  - destruct (Qle_bool _ _) eqn:Hle.
    + apply Qle_bool_iff in Hle. constructor; [by constructor|].
      constructor; [done|].
      eapply Forall_impl; [exact Hx|]. intros y Hy.
      by eapply closer_trans.
    + constructor; [done|].
      assert (closer distance q x r) as Hxr.
      { unfold closer. apply Qlt_le_weak, Qnot_le_lt.
        intros Hc. apply Qle_bool_iff in Hc. congruence. }
      rewrite insert_by_perm. by constructor.
Qed.

Lemma nearest_sorted s :
  StronglySorted (closer distance q) (Chroma.nearest distance q s).
Proof.
  induction s as [|r s IH]; cbn; [constructor|]. by apply insert_by_sorted.
Qed.

Lemma exc_map_ext_seq {A B} (f : nat -> exc B) (g : A -> B) (l : list A) :
  forall k,
    (forall i a, l !! i = Some a -> f (k + i)%nat = Return (g a)) ->
    exc_map f (seq k (length l)) = Return (map g l).
Proof.
  induction l as [|a l IH]; intros k Hf; cbn; [done|].
  rewrite <- (Nat.add_0_r k) at 1. rewrite (Hf 0%nat a) by done. cbn.
  rewrite (IH (S k)); [done|].
  intros i b Hi. rewrite Nat.add_succ_comm. by apply Hf.
Qed.

Lemma format_results_query top :
  format_results
    {| q_ids := [map Chroma.rec_id top];
       q_documents := [map Chroma.rec_document top];
       q_metadatas := [map Chroma.rec_metadata top];
       q_distances :=
         Some [map (fun r => distance q (Chroma.rec_document r)) top] |}
  = Return (map (chroma_hit distance q) top).
Proof.
  unfold format_results. cbn [q_documents].
  destruct (map Chroma.rec_document top) as [|d docs] eqn:Hdocs.
  { apply map_eq_nil in Hdocs. by subst top. }
  rewrite <- Hdocs, length_map. apply exc_map_ext_seq. intros i a Hi.
  unfold format_hit, getitem. cbn.
  by rewrite !list_lookup_fmap, Hi.
Qed.
End Nearest.

(** ** What [search] makes of the answer of the index *)

Section RowFacts.

Lemma ascending_sorted ds :
  ascending ds = true -> StronglySorted Qle ds.
Proof.
  induction ds as [|d rest IH]; [constructor|].
  cbn [ascending]. destruct rest as [|d' rest'].
  - intros _. repeat constructor.
  - intros [Hd Hrest]%andb_true_iff. apply Qle_bool_iff in Hd.
    specialize (IH Hrest). constructor; [done|].
    apply StronglySorted_inv in IH as [_ Hall].
    constructor; [done|].
    eapply Forall_impl; [exact Hall|]. intros y Hy.
    by eapply Qle_trans.
Qed.

Lemma sorted_ascending ds :
  StronglySorted Qle ds -> ascending ds = true.
Proof.
  induction 1 as [|d rest Hsorted IH Hall]; [done|].
  cbn [ascending]. destruct rest as [|d' rest']; [done|].
  apply andb_true_iff. split; [|done].
  apply Qle_bool_iff. by inversion Hall.
Qed.

Lemma format_results_closest_first results n :
  (0 < n)%nat ->
  closest_first results n = true ->
  exists ids docs mds ds,
    first_rows results = Some (ids, docs, mds, ds) /\
    length ids = n /\ length docs = n /\ length mds = n /\ length ds = n /\
    StronglySorted Qle ds /\
    format_results results
    = Return (map row_hit (zip ids (zip docs (zip mds ds)))).
Proof.
  intros Hn. unfold closest_first.
  destruct (first_rows results) as [[[[ids docs] mds] ds]|] eqn:Hrows;
    [|done].
  intros Hc. exists ids, docs, mds, ds.
  apply andb_true_iff in Hc as [Hc Hasc].
  apply andb_true_iff in Hc as [Hc Hds].
  apply andb_true_iff in Hc as [Hc Hmds].
  apply andb_true_iff in Hc as [Hids Hdocs].
  apply Nat.eqb_eq in Hids, Hdocs, Hmds, Hds.
  split; [done|]. do 4 (split; [done|]).
  split; [by apply ascending_sorted|].
  unfold first_rows in Hrows. unfold format_results.
  destruct (q_ids results) as [|ids0 ?] eqn:Hqi; [done|].
  destruct (q_documents results) as [|docs0 ?] eqn:Hqd; [done|].
  destruct (q_metadatas results) as [|mds0 ?] eqn:Hqm; [done|].
  destruct (q_distances results) as [[|ds0 ?]|] eqn:Hqs; [done| |done].
  injection Hrows as -> -> -> ->.
  destruct docs as [|d0 docs']; [cbn in Hdocs; lia|].
  set (rows := zip ids (zip (d0 :: docs') (zip mds ds))).
  assert (length rows = length (d0 :: docs')) as Hlen.
  { subst rows. rewrite !length_zip. lia. }
  rewrite <- Hlen. apply exc_map_ext_seq. intros i [id [doc [md d]]] Hi.
  subst rows.
  apply lookup_zip_with_Some in Hi as (? & [? [? ?]] & [= <- <- <- <-] & Hid & Hi).
  apply lookup_zip_with_Some in Hi as (? & [? ?] & [= <- <- <-] & Hdoc & Hi).
  apply lookup_zip_with_Some in Hi as (? & ? & [= <- <-] & Hmd & Hd).
  unfold format_hit, getitem. rewrite Hqi, Hqd, Hqm, Hqs. cbn.
  by rewrite Hdoc, Hmd, Hid, Hd.
Qed.

Lemma row_hits_nearer (rows : list (string * (string * (gmap string value * Q)))) :
  StronglySorted Qle (map (fun row => row.2.2.2) rows) ->
  StronglySorted nearer (map row_hit rows).
Proof.
  induction rows as [|row rows IH]; cbn; [constructor|].
  intros [Hrest Hall]%StronglySorted_inv. constructor; [by apply IH|].
  rewrite Forall_fmap. rewrite Forall_fmap in Hall.
  eapply Forall_impl; [exact Hall|]. by intros r Hr.
Qed.

End RowFacts.

Section TopK.
Context (X : Externals).
Local Abbreviation C := (index_impl X).
Implicit Types (s : agent C).

(** C4 (as amended).  For a query text that is not blank, a store of
    n > 0 entries and top_k >= 1, [search] issues two counts and then
    asks the index for exactly min(top_k, n) results, whatever the index
    answers.  When the index answers that request as a nearest-neighbour
    index does, with min(top_k, n) rows in order of increasing distance,
    [search] succeeds with exactly min(top_k, n) hits: hit i is row i of
    the answer, with its id, text, metadata and distance, so the hits
    are in the order of the index, the closest first, and [search]
    neither ranks them again nor breaks a tie. *)
Theorem search_top_k query_text top_k s :
  let n := Z.min top_k (coll_count C (collection s)) in
  is_blank query_text = false ->
  0 < coll_count C (collection s) ->
  1 <= top_k ->
  (search X query_text top_k s).2
  = after s (collection s) [Count; Count; Query query_text n] /\
  forall results : QueryResult,
    coll_query C query_text n (collection s) = Return results ->
    closest_first results (Z.to_nat n) = true ->
    exists hits : list hit,
      (search X query_text top_k s).1
      = Success {| sr_query := query_text;
                   sr_results := hits;
                   sr_count := n |} /\
      Z.of_nat (length hits) = n /\
      (forall (i : nat) (h : hit),
         hits !! i = Some h ->
         exists ids docs mds ds,
           first_rows results = Some (ids, docs, mds, ds) /\
           ids !! i = Some (hit_id h) /\
           docs !! i = Some (hit_text h) /\
           mds !! i = Some (hit_metadata h) /\
           ds !! i = hit_distance h) /\
      StronglySorted nearer hits.
Proof.
  intros n Hq Hn Hk. subst n.
  unfold search, bind, count, query, ret. rewrite Hq. cbn.
  destruct (coll_count C (collection s) =? 0) eqn:Hz; [lia|]. cbn.
  rewrite !log_after, !after_after. cbn [app].
  set (n := Z.min top_k (coll_count C (collection s))).
  destruct (coll_query C query_text _ (collection s)) as [answer|e]
    eqn:Hquery; cbn.
  2:{ split; [done|]. by intros results Hresults. }
  split; [by destruct (format_results answer)|].
  intros results [= <-] Hrows.
  apply format_results_closest_first in Hrows
    as (ids & docs & mds & ds & Hfirst & Hids & Hdocs & Hmds & Hds
        & Hsorted & ->); [|lia].
  set (rows := zip ids (zip docs (zip mds ds))).
  assert (length rows = Z.to_nat n) as Hlen.
  { subst rows. rewrite !length_zip. lia. }
  exists (map row_hit rows). cbn. rewrite length_map, Hlen.
  split; [f_equal; f_equal; lia|]. split; [lia|]. split.
  - intros i h Hi. exists ids, docs, mds, ds. split; [done|].
    rewrite list_lookup_fmap in Hi.
    destruct (rows !! i) as [[id [doc [md d]]]|] eqn:Hrow; [|done].
    injection Hi as <-. subst rows.
    apply lookup_zip_with_Some in Hrow
      as (? & [? [? ?]] & [= <- <- <- <-] & Hid & Hrow).
    apply lookup_zip_with_Some in Hrow
      as (? & [? ?] & [= <- <- <-] & Hdoc & Hrow).
    by apply lookup_zip_with_Some in Hrow as (? & ? & [= <- <-] & Hmd & Hd).
  - apply row_hits_nearer.
    replace (map (fun row : string * (string * (gmap string value * Q)) =>
                    row.2.2.2) rows) with ds; [done|].
    subst rows. clear - Hids Hdocs Hmds Hds.
    rewrite <- Hds in Hids, Hdocs, Hmds. clear Hds.
    revert ids docs mds Hids Hdocs Hmds.
    induction ds as [|d ds IH]; intros [|? ids] [|? docs] [|? mds];
      cbn; try done.
    intros [=] [=] [=]. f_equal. by apply IH.
Qed.
End TopK.

Section ChromaRows.
Context (distance : string -> string -> Q) (q : string).

Lemma take_sorted {A} (R : A -> A -> Prop) (k : nat) (l : list A) :
  StronglySorted R l -> StronglySorted R (take k l).
Proof.
  intros Hl. revert k.
  induction Hl as [|x l Hl IH Hx]; intros [|k]; cbn; try constructor.
  - apply IH.
  - by apply Forall_take.
Qed.

(** The reference index answers every request for 1 to count results
    with that many rows, the closest first. *)
Lemma chroma_closest_first (n : Z) (c : list Chroma.record) :
  1 <= n <= Chroma.count c ->
  exists results : QueryResult,
    Chroma.query distance q n c = Return results /\
    closest_first results (Z.to_nat n) = true.
Proof.
  intros Hn. unfold Chroma.query.
  destruct (n <=? 0) eqn:Hz; [lia|].
  eexists. split; [done|].
  unfold closest_first, first_rows. cbn.
  rewrite !length_map, length_take.
  rewrite (Permutation_length (nearest_perm distance q c)).
  unfold Chroma.count in Hn.
  replace (Z.to_nat n `min` length c)%nat with (Z.to_nat n) by lia.
  rewrite Nat.eqb_refl. cbn.
  apply sorted_ascending.
  pose proof (take_sorted _ (Z.to_nat n) _ (nearest_sorted distance q c))
    as Hsorted.
  induction Hsorted as [|r l Hl IH Hr]; cbn; constructor; [done|].
  rewrite Forall_fmap. eapply Forall_impl; [exact Hr|]. by intros y Hy.
Qed.
End ChromaRows.

Lemma reingest_keeps_old_text_counterexample :
  Sample.revised !! "id" = Some (VStr "doc_chunk_1") /\
  Sample.revised !! "text"
  = Some (VStr "The termination notice period is 60 days.") /\
  Chroma.has_id (collection Sample.loaded) "doc_chunk_1" = true /\
  (add_chunks Sample.pipeline [Sample.revised] Sample.loaded).1
  = Success {| chunks_added := 1; total_documents := 1 |} /\
  Chroma.rec_document
    <$> Chroma.lookup
          (collection (add_chunks Sample.pipeline [Sample.revised] Sample.loaded).2)
          "doc_chunk_1"
  = Some "The termination notice period is 30 days.".
Proof. vm_compute. repeat split. Qed.

Lemma search_top_k_witness :
  coll_query Sample.chroma Sample.question 2 (collection Desk.shelved)
  = Return Desk.nearest_two /\
  closest_first Desk.nearest_two 2 = true /\
  (search Sample.pipeline Sample.question 2 Desk.shelved).2
  = after Desk.shelved (collection Desk.shelved)
      [Count; Count; Query Sample.question 2] /\
  exists hits : list hit,
    (search Sample.pipeline Sample.question 2 Desk.shelved).1
    = Success {| sr_query := Sample.question;
                 sr_results := hits;
                 sr_count := 2 |} /\
    Z.of_nat (length hits) = 2 /\
    (forall (i : nat) (h : hit),
       hits !! i = Some h ->
       exists ids docs mds ds,
         first_rows Desk.nearest_two = Some (ids, docs, mds, ds) /\
         ids !! i = Some (hit_id h) /\
         docs !! i = Some (hit_text h) /\
         mds !! i = Some (hit_metadata h) /\
         ds !! i = hit_distance h) /\
    StronglySorted nearer hits.
Proof.
  assert (coll_query Sample.chroma Sample.question 2
            (collection Desk.shelved) = Return Desk.nearest_two) as Hrows
    by (vm_compute; reflexivity).
  assert (closest_first Desk.nearest_two 2 = true) as Hfirst
    by (vm_compute; reflexivity).
  destruct (search_top_k Sample.pipeline Sample.question 2 Desk.shelved)
    as [Hstate Hhits];
    [vm_compute; reflexivity | vm_compute; reflexivity | lia |].
  split; [exact Hrows|]. split; [exact Hfirst|]. split; [exact Hstate|].
  exact (Hhits Desk.nearest_two Hrows Hfirst).
Defined.

Lemma nonpositive_top_k_counterexample :
  is_blank Sample.question = false /\
  Chroma.count (collection Sample.stocked) = 2 /\
  (search Sample.pipeline Sample.question 0 Sample.stocked).1
  = Failure
      "Error searching: Number of requested results 0, cannot be negative, or zero." /\
  (search Sample.pipeline Sample.question (-1) Sample.stocked).1
  = Failure
      "Error searching: Number of requested results -1, cannot be negative, or zero.".
Proof. vm_compute. repeat split. Qed.


Lemma process_document_stages_witness :
  process_document Sample.pipeline "documents/none.pdf" Sample.busy
  = (Failure ("PDF extraction failed: "
              +:+ "File not found: documents/none.pdf"), Sample.busy) /\
  process_document Sample.pipeline "documents/blank.pdf" Sample.busy
  = (Failure ("Chunking failed: " +:+ "Text is empty or None"),
     Sample.busy) /\
  process_document Sample.refused "documents/lease.pdf" Sample.waiting
  = (Failure ("Vector storage failed: "
              +:+ "Error adding chunks: database or disk is full"),
     Sample.turned_away) /\
  process_document Sample.pipeline "documents/lease.pdf" Sample.empty
  = (Success ("Document processed successfully!", Sample.lease_info),
     Sample.processed).
Proof.
  split_and!.
  - apply (proj1 (process_document_stages Sample.pipeline
                    "documents/none.pdf" Sample.busy)).
    vm_compute. reflexivity.
  - refine (proj1 (proj2 (process_document_stages Sample.pipeline
                            "documents/blank.pdf" Sample.busy)
                     Sample.blank_extraction _) _ _);
      vm_compute; reflexivity.
  - refine (proj1 (proj1 (proj2 (proj2 (process_document_stages Sample.refused
                            "documents/lease.pdf" Sample.waiting)
                     Sample.lease_extraction _) Sample.whole_chunking _) _ _));
      vm_compute; reflexivity.
  - refine (proj2 (proj2 (proj2 (process_document_stages Sample.pipeline
                            "documents/lease.pdf" Sample.empty)
                     Sample.lease_extraction _) Sample.whole_chunking _)
              {| chunks_added := 1; total_documents := 1 |} _);
      vm_compute; reflexivity.
Defined.

Lemma process_document_keeps_current_document_witness :
  process_document Sample.refused "documents/lease.pdf" Sample.waiting
  = (Failure
       "Vector storage failed: Error adding chunks: database or disk is full",
     Sample.turned_away) /\
  current_document Sample.turned_away = current_document Sample.waiting.
Proof.
  assert (process_document Sample.refused "documents/lease.pdf" Sample.waiting
          = (Failure
               "Vector storage failed: Error adding chunks: database or disk is full",
             Sample.turned_away)) as Hrun by (vm_compute; reflexivity).
  split; [exact Hrun|].
  exact (process_document_keeps_current_document Sample.refused
           "documents/lease.pdf" Sample.waiting _ Sample.turned_away Hrun).
Defined.

(** With the model answering, every topic gets its clause; with the model
    down, the mapping is empty and the call still succeeds. *)
Example extract_key_clauses_answered :
  (extract_key_clauses Sample.pipeline Sample.stocked).1
  = Success (list_to_map (map (fun topic => (topic, "30 days")) key_topics)).
Proof. vm_compute. reflexivity. Qed.

Example extract_key_clauses_model_down :
  (extract_key_clauses Sample.muted Sample.stocked).1 = Success ∅.
Proof. vm_compute. reflexivity. Qed.

(** * Further properties *)

(** ** Blank texts *)

Section BlankFacts.
Implicit Types (s cur : string) (c : ascii).

Lemma rstrip_empty s : Py.rstrip s = "" <-> all_space s = true.
Proof.
  induction s as [|c s IH]; cbn; [done|].
  destruct (Py.rstrip s) eqn:Hr.
  - destruct (Py.isspace c); cbn; [tauto|]. split; [done|]. 
    intros [=].
  - split; [done|]. intros [_ H]%andb_true_iff. apply IH in H. done.
Qed.

Lemma all_space_lstrip s : all_space (Py.lstrip s) = all_space s.
Proof.
  induction s as [|c s IH]; cbn; [done|].
  destruct (Py.isspace c) eqn:Hc; cbn; [done|]. by rewrite Hc.
Qed.

Lemma strip_empty s : Py.strip s = "" <-> all_space s = true.
Proof. unfold Py.strip. by rewrite rstrip_empty, all_space_lstrip. Qed.

Lemma len_zero s : Py.len s = 0 <-> s = "".
Proof.
  unfold Py.len. destruct s; cbn; [done|]. split; [lia | done].
Qed.

Lemma is_blank_all_space s : is_blank s = all_space s.
Proof.
  unfold is_blank. apply eq_true_iff_eq.
  rewrite orb_true_iff, Z.eqb_eq, len_zero, strip_empty, String.eqb_eq.
  split; [|by right]. intros [->|?]; done.
Qed.

Lemma flush_empty cur : Py.flush cur = [] <-> cur = "".
Proof. by destruct cur. Qed.

Lemma split_go_empty s : forall cur,
  Py.split_go cur s = [] <-> cur = "" /\ all_space s = true.
Proof.
  induction s as [|c s IH]; intros cur; cbn.
  - rewrite flush_empty. tauto.
  - destruct (Py.isspace c); cbn.
    + rewrite app_nil, IH, flush_empty. tauto.
    + rewrite IH. split; [|by intros [_ ?]].
      intros [H _]. by apply str_app_snoc in H.
Qed.

Lemma split_empty s : Py.split s = [] <-> all_space s = true.
Proof. unfold Py.split. rewrite split_go_empty. tauto. Qed.

Lemma is_blank_no_word s : is_blank s = true <-> Py.split s = [].
Proof. by rewrite is_blank_all_space, split_empty. Qed.

Lemma all_space_app s1 s2 :
  all_space (s1 +:+ s2) = all_space s1 && all_space s2.
Proof.
  induction s1 as [|c s1 IH]; [done|].
  rewrite str_app_cons. cbn. by rewrite IH, andb_assoc.
Qed.

Lemma all_space_join l :
  Forall (fun w => all_space w = true) l -> all_space (Py.join " " l) = true.
Proof.
  induction 1 as [|w l Hw Hl IH]; [done|].
  destruct l as [|w' l]; [done|].
  rewrite join_cons by done. by rewrite !all_space_app, Hw, IH.
Qed.

Lemma clean_text_no_word s : Py.split s = [] -> clean_text s = "".
Proof. unfold clean_text. by intros ->. Qed.
End BlankFacts.

Section ChunkTextMore.
Context (X : Externals).

(** X1. [chunk_text] answers "Text is empty or None" exactly for the texts
    that hold no word, that is the empty text and the texts of whitespace
    only, whatever the sizes and the source name are. *)
Theorem chunk_text_rejects_exactly_blank text chunk_size chunk_overlap
    source_name :
  chunk_text X text chunk_size chunk_overlap source_name
  = Failure "Text is empty or None"
  <-> Py.split text = [].
Proof.
  rewrite <- is_blank_no_word. unfold chunk_text.
  destruct (is_blank text); [done|].
  destruct (split_text X chunk_size chunk_overlap text); split; done.
Qed.

(** X2. The statistics of a successful [chunk_text]: the number of chunks
    the splitter gave, the length and the number of words of the whole
    text, and as the average the floor of the mean chunk length (0 for no
    chunk).  Every chunk carries the source name and the length and the
    number of words of its own text. *)
Theorem chunk_text_statistics text chunk_size chunk_overlap source_name r :
  chunk_text X text chunk_size chunk_overlap source_name = Success r ->
  exists segments : list string,
    split_text X chunk_size chunk_overlap text = Return segments /\
    st_total_chunks (ch_statistics r) = Z.of_nat (length segments) /\
    st_total_characters (ch_statistics r) = Py.len text /\
    st_total_words (ch_statistics r) = Z.of_nat (length (Py.split text)) /\
    (segments = [] -> st_avg_chunk_size (ch_statistics r) = 0) /\
    (segments <> [] ->
     st_avg_chunk_size (ch_statistics r) * Z.of_nat (length segments)
     <= total_len segments
     < (st_avg_chunk_size (ch_statistics r) + 1)
       * Z.of_nat (length segments)) /\
    (forall (i : nat) (segment : string),
       segments !! i = Some segment ->
       exists chunk : gmap string value,
         ch_chunks r !! i = Some chunk /\
         chunk !! "source" = Some (VStr source_name) /\
         chunk !! "char_count" = Some (VInt (Py.len segment)) /\
         chunk !! "word_count"
         = Some (VInt (Z.of_nat (length (Py.split segment))))).
Proof.
  unfold chunk_text. destruct (is_blank text); [done|].
  destruct (split_text X chunk_size chunk_overlap text) as [segments|e];
    [|done].
  intros [= <-]. exists segments. cbn. split_and!; try done.
  - by intros ->.
  - intros Hne. destruct segments as [|seg rest] eqn:Hseg; [done|].
    rewrite <- Hseg. set (n := Z.of_nat (length segments)).
    assert (0 < n) by (subst n segments; cbn; lia).
    pose proof (Z.div_mod (total_len segments) n ltac:(lia)).
    pose proof (Z.mod_pos_bound (total_len segments) n ltac:(lia)).
    fold (total_len segments `div` n). nia.
  - intros i segment Hi. eexists. rewrite list_lookup_imap, Hi.
    split; [reflexivity|]. unfold chunk_obj. by dict_lookup.
Qed.
End ChunkTextMore.

Section BlankDocument.
Context (X : Externals).
Local Abbreviation C := (index_impl X).

Lemma extract_text_from_pdf_text pdf_path pages :
  path_exists X pdf_path = true ->
  Py.endswith (Py.lower pdf_path) ".pdf" = true ->
  PdfReader X pdf_path = Return pages ->
  exists e,
    extract_text_from_pdf X pdf_path = Success e /\
    ex_text e = Py.join " " (map clean_text pages) /\
    md_filename (ex_metadata e) = Py.basename pdf_path /\
    md_num_pages (ex_metadata e) = Z.of_nat (length pages) /\
    md_total_characters (ex_metadata e) = Py.len (ex_text e) /\
    md_total_words (ex_metadata e) = Z.of_nat (length (Py.split (ex_text e))).
Proof.
  intros Hex Hext Hread. unfold extract_text_from_pdf.
  rewrite Hex, Hext, Hread. cbn [negb].
  pose proof (read_pages_all_text pages 0 [] ∅) as Hall.
  destruct (read_pages pages 0 [] ∅) as [all_text page_texts].
  cbn in Hall. subst all_text. eexists. split; [reflexivity|]. done.
Qed.

(** X3. A PDF that exists and can be read, and whose pages hold no word at
    all, is refused by [process_document] with "Chunking failed: Text is
    empty or None": extraction succeeds on it, nothing reaches the index
    and the agent is left as it was. *)
Theorem process_document_without_text pdf_path pages (s : agent C) :
  path_exists X pdf_path = true ->
  Py.endswith (Py.lower pdf_path) ".pdf" = true ->
  PdfReader X pdf_path = Return pages ->
  Forall (fun raw => Py.split raw = []) pages ->
  process_document X pdf_path s
  = (Failure "Chunking failed: Text is empty or None", s).
Proof.
  intros Hex Hext Hread Hblank.
  destruct (extract_text_from_pdf_text pdf_path pages Hex Hext Hread)
    as (e & He & Htext & _).
  unfold process_document. rewrite He.
  assert (is_blank (ex_text e) = true) as Hb.
  { rewrite is_blank_all_space, Htext. apply all_space_join.
    apply Forall_fmap. eapply Forall_impl; [exact Hblank|].
    cbn. intros raw Hraw. by rewrite clean_text_no_word. }
  unfold chunk_text. by rewrite Hb.
Qed.
End BlankDocument.

Lemma chunk_text_statistics_witness :
  exists segments : list string,
    Sample.hard_cut 5 2 "LEASE AGREEMENT" = Return segments /\
    st_total_chunks (ch_statistics Sample.lease_chunking)
    = Z.of_nat (length segments) /\
    st_total_characters (ch_statistics Sample.lease_chunking)
    = Py.len "LEASE AGREEMENT" /\
    st_total_words (ch_statistics Sample.lease_chunking)
    = Z.of_nat (length (Py.split "LEASE AGREEMENT")) /\
    (segments = [] ->
     st_avg_chunk_size (ch_statistics Sample.lease_chunking) = 0) /\
    (segments <> [] ->
     st_avg_chunk_size (ch_statistics Sample.lease_chunking)
     * Z.of_nat (length segments)
     <= total_len segments
     < (st_avg_chunk_size (ch_statistics Sample.lease_chunking) + 1)
       * Z.of_nat (length segments)) /\
    (forall (i : nat) (segment : string),
       segments !! i = Some segment ->
       exists chunk : gmap string value,
         ch_chunks Sample.lease_chunking !! i = Some chunk /\
         chunk !! "source" = Some (VStr "lease.pdf") /\
         chunk !! "char_count" = Some (VInt (Py.len segment)) /\
         chunk !! "word_count"
         = Some (VInt (Z.of_nat (length (Py.split segment))))).
Proof.
  apply (chunk_text_statistics Sample.pipeline "LEASE AGREEMENT" 5 2
           "lease.pdf").
  vm_compute. reflexivity.
Defined.

Lemma process_document_without_text_witness :
  process_document Sample.pipeline "documents/blank.pdf" Sample.busy
  = (Failure "Chunking failed: Text is empty or None", Sample.busy).
Proof.
  apply (process_document_without_text Sample.pipeline "documents/blank.pdf"
           ["   "; Py.LF]).
  - vm_compute. reflexivity.
  - vm_compute. reflexivity.
  - vm_compute. reflexivity.
  - repeat (constructor; [vm_compute; reflexivity|]). constructor.
Defined.

(** ** The batch that [add_chunks] hands to the index *)

Section PrepareFacts.

Lemma chunk_id_stored_id chunk ids :
  chunk_id chunk ids = stored_id chunk (length ids).
Proof.
  unfold chunk_id, stored_id, py_or, dict_get.
  destruct (chunk !! "id") as [v|].
  - destruct (truthy (Some v)) eqn:Hv; cbv beta iota; [by rewrite Hv|].
    destruct (chunk !! "global_chunk_id") as [g|]; [|done].
    by destruct (truthy (Some g)) eqn:Hg; cbv beta iota; rewrite ?Hg.
  - change (truthy None) with false. cbv beta iota.
    destruct (chunk !! "global_chunk_id") as [g|]; [|done].
    by destruct (truthy (Some g)) eqn:Hg; cbv beta iota; rewrite ?Hg.
Qed.

Lemma prepare_app chunks : forall documents metadatas ids,
  prepare chunks documents metadatas ids
  = match mapM (fun chunk : gmap string value => chunk !! "text") chunks with
    | Some texts =>
        Return (documents ++ texts,
                metadatas ++ map chunk_metadata chunks,
                ids ++ imap (fun i chunk =>
                               stored_id chunk (length ids + i)) chunks)
    | None => Raise "'text'"
    end.
Proof.
  induction chunks as [|chunk rest IH]; intros documents metadatas ids.
  - cbn. by rewrite !(right_id_L [] (++)).
  - cbn [prepare mapM]. destruct (chunk !! "text") as [t|] eqn:Ht; cbn; [|done].
    rewrite IH. destruct (mapM _ rest) as [texts|]; cbn; [|done].
    rewrite <- !(assoc_L (++)). cbn. rewrite chunk_id_stored_id.
    rewrite Nat.add_0_r. do 3 f_equal. f_equal.
    apply imap_ext. intros i c _. cbn. rewrite length_app. cbn.
    f_equal. lia.
Qed.

Lemma mapM_text_lookup (chunks : list (gmap string value)) texts :
  mapM (fun chunk : gmap string value => chunk !! "text") chunks = Some texts ->
  length texts = length chunks /\
  forall i chunk, chunks !! i = Some chunk -> texts !! i = chunk !! "text".
Proof.
  intros H. split; [symmetry; by eapply length_mapM|].
  intros i chunk Hi. rewrite mapM_Some in H.
  destruct (Forall2_lookup_l _ _ _ _ _ H Hi) as (t & -> & ->). done.
Qed.

(** X4. The batch that [add_chunks] builds keeps the order of the chunks:
    the i-th document is the text of the i-th chunk, the i-th metadata is
    its metadata, and the i-th id is its "id" when that is truthy, else
    its "global_chunk_id" when that is truthy, else "chunk_i" with the
    position counted from 0. *)
Theorem prepare_batch chunks documents metadatas ids :
  prepare chunks [] [] [] = Return (documents, metadatas, ids) ->
  length documents = length chunks /\
  length metadatas = length chunks /\
  length ids = length chunks /\
  forall (i : nat) (chunk : gmap string value),
    chunks !! i = Some chunk ->
    documents !! i = chunk !! "text" /\
    metadatas !! i = Some (chunk_metadata chunk) /\
    ids !! i
    = Some (if truthy (chunk !! "id") then dict_get chunk "id" (VStr "")
            else if truthy (chunk !! "global_chunk_id")
                 then dict_get chunk "global_chunk_id" (VStr "")
                 else VStr ("chunk_" +:+ Py.str (Z.of_nat i))).
Proof.
  rewrite prepare_app.
  destruct (mapM _ chunks) as [texts|] eqn:Htexts; [|done].
  intros [= <- <- <-]. apply mapM_text_lookup in Htexts as [Hlen Hnth].
  cbn. rewrite length_map, length_imap. split_and!; [done..|].
  intros i chunk Hi. split_and!.
  - by apply Hnth.
  - by rewrite list_lookup_fmap, Hi.
  - by rewrite list_lookup_imap, Hi.
Qed.
End PrepareFacts.

Section AddChunksFailure.
Context (X : Externals).
Local Abbreviation C := (index_impl X).

Lemma mapM_text_missing (chunks : list (gmap string value)) i chunk :
  chunks !! i = Some chunk -> chunk !! "text" = None ->
  mapM (fun chunk : gmap string value => chunk !! "text") chunks = None.
Proof.
  intros Hi Ht. destruct (mapM _ chunks) as [texts|] eqn:H; [|done].
  apply mapM_text_lookup in H as [Hlen Hnth].
  specialize (Hnth i chunk Hi). rewrite Ht in Hnth.
  apply lookup_lt_Some in Hi. apply lookup_ge_None in Hnth. lia.
Qed.

(** X5. A single chunk without the key "text" makes the whole [add_chunks]
    fail with the KeyError message "Error adding chunks: 'text'": the
    index is never called, so the chunks before it are not stored either. *)
Theorem add_chunks_missing_text chunks i chunk (s : agent C) :
  chunks !! i = Some chunk ->
  chunk !! "text" = None ->
  add_chunks X chunks s = (Failure "Error adding chunks: 'text'", s).
Proof.
  intros Hi Ht. unfold add_chunks.
  destruct chunks as [|c rest] eqn:Hc; [done|]. cbv beta iota.
  rewrite <- Hc in *.
  rewrite prepare_app, (mapM_text_missing chunks i chunk Hi Ht). done.
Qed.
End AddChunksFailure.

Lemma prepare_batch_witness :
  prepare Desk.mixed [] [] []
  = Return (Desk.mixed_documents, map chunk_metadata Desk.mixed,
            Desk.mixed_ids) /\
  length Desk.mixed_documents = length Desk.mixed /\
  length (map chunk_metadata Desk.mixed) = length Desk.mixed /\
  length Desk.mixed_ids = length Desk.mixed /\
  forall (i : nat) (chunk : gmap string value),
    Desk.mixed !! i = Some chunk ->
    Desk.mixed_documents !! i = chunk !! "text" /\
    map chunk_metadata Desk.mixed !! i = Some (chunk_metadata chunk) /\
    Desk.mixed_ids !! i
    = Some (if truthy (chunk !! "id") then dict_get chunk "id" (VStr "")
            else if truthy (chunk !! "global_chunk_id")
                 then dict_get chunk "global_chunk_id" (VStr "")
                 else VStr ("chunk_" +:+ Py.str (Z.of_nat i))).
Proof.
  assert (prepare Desk.mixed [] [] []
          = Return (Desk.mixed_documents, map chunk_metadata Desk.mixed,
                    Desk.mixed_ids)) as Hrun
    by (vm_compute; reflexivity).
  split; [exact Hrun|].
  exact (prepare_batch Desk.mixed Desk.mixed_documents
           (map chunk_metadata Desk.mixed) Desk.mixed_ids Hrun).
Defined.

Lemma add_chunks_missing_text_witness :
  add_chunks Sample.pipeline [Sample.passage; Desk.textless] Sample.empty
  = (Failure "Error adding chunks: 'text'", Sample.empty).
Proof.
  apply (add_chunks_missing_text Sample.pipeline
           [Sample.passage; Desk.textless] 1 Desk.textless).
  - reflexivity.
  - vm_compute. reflexivity.
Defined.

Section PrimaryFlow.
Context (X : Externals).
Local Abbreviation C := (index_impl X).

Lemma chunk_name_nonempty source_name n :
  String.eqb (source_name +:+ "_chunk_" +:+ n) "" = false.
Proof. by destruct source_name. Qed.

Lemma stored_id_chunk_obj source_name total i segment k :
  stored_id (chunk_obj source_name total i segment) k
  = VStr (source_name +:+ "_chunk_" +:+ Py.str (Z.of_nat i + 1)).
Proof.
  unfold stored_id, dict_get. rewrite chunk_obj_id. cbn [truthy].
  by rewrite chunk_name_nonempty.
Qed.

Lemma chunk_metadata_chunk_obj source_name total i segment :
  chunk_metadata (chunk_obj source_name total i segment)
  = <["chunk_index" := VInt (Z.of_nat i + 1)]>
    (<["source" := VStr source_name]>
    (<["char_count" := VInt (Py.len segment)]>
    (<["word_count" := VInt (Z.of_nat (length (Py.split segment)))]>
    (<["page_number" := VInt 0]> ∅)))).
Proof.
  unfold chunk_metadata, dict_get, chunk_obj. by dict_lookup.
Qed.

Lemma prepare_chunk_objs source_name total segments :
  prepare (imap (chunk_obj source_name total) segments) [] [] []
  = Return
      (map VStr segments,
       imap (fun i segment =>
               chunk_metadata (chunk_obj source_name total i segment))
         segments,
       imap (fun i _ =>
               VStr (source_name +:+ "_chunk_" +:+ Py.str (Z.of_nat i + 1)))
         segments).
Proof.
  rewrite prepare_app.
  assert (mapM (fun chunk : gmap string value => chunk !! "text")
            (imap (chunk_obj source_name total) segments)
          = Some (map VStr segments)) as ->.
  { apply mapM_Some, Forall2_same_length_lookup.
    rewrite length_imap, length_map. split; [done|].
    intros i chunk t. rewrite list_lookup_imap, list_lookup_fmap.
    destruct (segments !! i); cbn; [|done].
    intros [= <-] [= <-]. apply chunk_obj_text. }
  cbn. do 2 f_equal; [f_equal|].
  - apply list_eq. intros i.
    rewrite list_lookup_fmap, !list_lookup_imap.
    by destruct (segments !! i).
  - apply list_eq. intros i. rewrite !list_lookup_imap.
    destruct (segments !! i); cbn; [|done].
    by rewrite stored_id_chunk_obj.
Qed.

(** X6. A successful [process_document] calls the index exactly twice, one
    add of the whole batch and then one count.  The batch holds the
    segments of the splitter in order with the ids "<filename>_chunk_<i>"
    counted from 1, and every metadata has page number 0, the file name
    as source and the chunk index counted from 1. *)
Theorem process_document_stored_batch pdf_path (s : agent C) message info s' :
  process_document X pdf_path s = (Success (message, info), s') ->
  exists (e : extraction) (segments : list string)
         (metadatas : list (gmap string value)),
    extract_text_from_pdf X pdf_path = Success e /\
    split_text X (get_optimal_chunk_size (ex_text e)) 200 (ex_text e)
    = Return segments /\
    di_chunk_size info = get_optimal_chunk_size (ex_text e) /\
    di_num_chunks info = Z.of_nat (length segments) /\
    calls s'
    = calls s
      ++ [Add (map VStr segments) metadatas
            (imap (fun i _ =>
                     VStr (di_filename info +:+ "_chunk_"
                           +:+ Py.str (Z.of_nat i + 1))) segments);
          Count] /\
    length metadatas = length segments /\
    (forall (i : nat) (md : gmap string value),
       metadatas !! i = Some md ->
       md !! "page_number" = Some (VInt 0) /\
       md !! "source" = Some (VStr (di_filename info)) /\
       md !! "chunk_index" = Some (VInt (Z.of_nat i + 1))).
Proof.
  unfold process_document.
  destruct (extract_text_from_pdf X pdf_path) as [e|err]; [|done].
  destruct (chunk_text X _ _ _ _) as [ch|err] eqn:Hch; [|done].
  apply chunk_text_success in Hch as (segments & Hsplit & Hchunks).
  rewrite Hchunks. unfold bind, add_chunks.
  destruct (imap _ segments) as [|c0 rest] eqn:Himap; [done|].
  cbv beta iota. rewrite <- Himap. rewrite prepare_chunk_objs.
  unfold bind, add, count, ret, set_current_document. cbn.
  destruct (coll_add C _ _ _ (collection s)) as [[[]|err] c1]; [|done].
  cbn. intros [= <- <- <-]. cbn.
  eexists e, segments, _. split_and!; [done..| | | |].
  - by rewrite length_imap.
  - by rewrite <- (assoc_L (++)).
  - by rewrite length_imap.
  - intros i md. rewrite list_lookup_imap.
    destruct (segments !! i); cbn; [|done]. intros [= <-].
    rewrite chunk_metadata_chunk_obj. by dict_lookup.
Qed.
End PrimaryFlow.

Section ChromaNumbers.
Context (distance : string -> string -> Q) (X0 : Externals).
Local Abbreviation X := (on_chroma distance X0).
Implicit Types (s : agent (Chroma.index distance)).

Lemma length_add_one (c : list Chroma.record) r :
  (length c <= length (Chroma.add_one c r) <= S (length c))%nat.
Proof.
  unfold Chroma.add_one. destruct (Chroma.has_id c (Chroma.rec_id r)).
  - lia.
  - rewrite length_app. cbn. lia.
Qed.

Lemma length_foldl_add_one recs : forall c : list Chroma.record,
  (length c <= length (foldl Chroma.add_one c recs)
   <= length c + length recs)%nat.
Proof.
  induction recs as [|r recs IH]; intros c; cbn; [lia|].
  specialize (IH (Chroma.add_one c r)).
  pose proof (length_add_one c r). lia.
Qed.

Lemma length_chroma_add documents metadatas ids (c : list Chroma.record) :
  (length c <= length (Chroma.add documents metadatas ids c).2
   <= length c + length ids)%nat.
Proof.
  unfold Chroma.add.
  destruct (mapM Chroma.as_str ids) as [ids'|] eqn:Hids; cbn; [|lia].
  destruct (mapM Chroma.as_str documents) as [docs'|]; cbn; [|lia].
  destruct (negb _); cbn; [lia|]. destruct (negb _); cbn; [lia|].
  pose proof (length_foldl_add_one
                (Chroma.records ids' docs' metadatas) c) as H.
  assert (length (Chroma.records ids' docs' metadatas) <= length ids)%nat.
  { unfold Chroma.records. rewrite length_zip_with.
    apply length_mapM in Hids. lia. }
  lia.
Qed.

(** X7. On the reference index a successful [add_chunks] reports as
    [chunks_added] the size of the batch it was given, not the number of
    records that were new, and as [total_documents] the count after the
    add, which lies between the old count and the old count plus the
    batch size. *)
Theorem add_chunks_reports_batch_size chunks s r s' :
  add_chunks X chunks s = (Success r, s') ->
  chunks_added r = Z.of_nat (length chunks) /\
  total_documents r = Chroma.count (collection s') /\
  Chroma.count (collection s) <= total_documents r
  <= Chroma.count (collection s) + Z.of_nat (length chunks).
Proof.
  unfold add_chunks. destruct chunks as [|c0 rest] eqn:Hc; [done|].
  cbv beta iota. rewrite <- Hc. rewrite prepare_app.
  destruct (mapM _ chunks) as [texts|] eqn:Htexts; [|done].
  unfold bind, add, count, ret. cbn.
  pose proof (length_chroma_add texts (map chunk_metadata chunks)
                (imap (fun i chunk => stored_id chunk (0 + i)) chunks)
                (collection s)) as Hlen.
  rewrite length_imap in Hlen.
  destruct (Chroma.add _ _ _ (collection s)) as [[[]|err] c1]; [|done].
  cbn in *. intros [= <- <-]. cbn. unfold Chroma.count. lia.
Qed.
End ChromaNumbers.

Lemma process_document_stored_batch_witness :
  exists (e : extraction) (segments : list string)
         (metadatas : list (gmap string value)),
    extract_text_from_pdf Sample.pipeline "documents/lease.pdf" = Success e /\
    Sample.hard_cut (get_optimal_chunk_size (ex_text e)) 200 (ex_text e)
    = Return segments /\
    di_chunk_size Sample.lease_info = get_optimal_chunk_size (ex_text e) /\
    di_num_chunks Sample.lease_info = Z.of_nat (length segments) /\
    calls Sample.processed
    = calls Sample.empty
      ++ [Add (map VStr segments) metadatas
            (imap (fun i _ =>
                     VStr (di_filename Sample.lease_info +:+ "_chunk_"
                           +:+ Py.str (Z.of_nat i + 1))) segments);
          Count] /\
    length metadatas = length segments /\
    (forall (i : nat) (md : gmap string value),
       metadatas !! i = Some md ->
       md !! "page_number" = Some (VInt 0) /\
       md !! "source" = Some (VStr (di_filename Sample.lease_info)) /\
       md !! "chunk_index" = Some (VInt (Z.of_nat i + 1))).
Proof.
  apply (process_document_stored_batch Sample.pipeline "documents/lease.pdf"
           Sample.empty "Document processed successfully!").
  vm_compute. reflexivity.
Defined.

Lemma add_chunks_reports_batch_size_witness :
  add_chunks Sample.pipeline [Sample.clause] Sample.loaded
  = (Success {| chunks_added := 1; total_documents := 2 |}, Sample.stocked) /\
  chunks_added {| chunks_added := 1; total_documents := 2 |}
  = Z.of_nat (length [Sample.clause]) /\
  total_documents {| chunks_added := 1; total_documents := 2 |}
  = Chroma.count (collection Sample.stocked) /\
  Chroma.count (collection Sample.loaded)
  <= total_documents {| chunks_added := 1; total_documents := 2 |}
  <= Chroma.count (collection Sample.loaded)
     + Z.of_nat (length [Sample.clause]).
Proof.
  assert (add_chunks Sample.pipeline [Sample.clause] Sample.loaded
          = (Success {| chunks_added := 1; total_documents := 2 |},
             Sample.stocked)) as Hrun
    by (vm_compute; reflexivity).
  split; [exact Hrun|].
  exact (add_chunks_reports_batch_size Sample.distance Sample.pipeline
           [Sample.clause] Sample.loaded _ Sample.stocked Hrun).
Defined.

(** ** What the question methods touch *)

Section QueryCalls.
Context (X : Externals).
Local Abbreviation C := (index_impl X).
Implicit Types (s : agent C).

(** The run of [search], written out. *)
Lemma search_run query_text top_k s :
  search X query_text top_k s
  = if is_blank query_text then (Failure EmptyQuery, s)
    else if coll_count C (collection s) =? 0 then
      (Failure EmptyStore, after s (collection s) [Count])
    else
      let n := Z.min top_k (coll_count C (collection s)) in
      (match coll_query C query_text n (collection s) with
       | Raise e => Failure ("Error searching: " +:+ e)
       | Return results =>
           match format_results results with
           | Raise e => Failure ("Error searching: " +:+ e)
           | Return hits =>
               Success {| sr_query := query_text;
                          sr_results := hits;
                          sr_count := Z.of_nat (length hits) |}
           end
       end,
       after s (collection s) [Count; Count; Query query_text n]).
Proof.
  unfold search. destruct (is_blank query_text); [done|].
  unfold bind, count, query, ret. cbn.
  destruct (coll_count C (collection s) =? 0); [done|]. cbn.
  rewrite !log_after, !after_after. cbn.
  destruct (coll_query C query_text _ (collection s)) as [results|e];
    [destruct (format_results results)|]; done.
Qed.

(** The run of [ask_question], written out over the one of [search]. *)
Lemma ask_question_run question top_k s :
  ask_question X question top_k s
  = let '(found, s1) := search X question top_k s in
    match found with
    | Failure e => (Failure e, s1)
    | Success found =>
        if sr_count found =? 0 then (Failure NoRelevantInformation, s1)
        else
          let prompt :=
            build_prompt (build_context (sr_results found)) question in
          (match llm_invoke X prompt with
           | Raise e => Failure ("Error answering question: " +:+ e)
           | Return text =>
               Success {| ans_question := question;
                          ans_answer := text;
                          ans_sources := map cite (sr_results found);
                          ans_num_sources :=
                            Z.of_nat (length (map cite (sr_results found))) |}
           end,
           after s1 (collection s1) [Invoke prompt])
    end.
Proof.
  unfold ask_question, bind.
  destruct (search X question top_k s) as [[found|e] s1]; [|done].
  destruct (sr_count found =? 0); [done|].
  unfold invoke, ret. by destruct (llm_invoke X _).
Qed.

(** X8. [ask_question] only appends calls to the log: at most one query of
    the index, and one call of the model exactly when the search
    succeeded with at least one hit; in every other case the model is
    not called. *)
Theorem ask_question_calls question top_k s :
  exists cs : list call,
    (ask_question X question top_k s).2 = after s (collection s) cs /\
    (queries cs <= 1)%nat /\
    invocations cs
    = match (search X question top_k s).1 with
      | Success found => if sr_count found =? 0 then 0%nat else 1%nat
      | Failure _ => 0%nat
      end.
Proof.
  rewrite ask_question_run, search_run.
  destruct (is_blank question).
  { exists []. cbn. rewrite after_nil. split_and!; [done|lia|done]. }
  destruct (coll_count C (collection s) =? 0).
  { exists [Count]. cbn. split_and!; [done|lia|done]. }
  cbv zeta.
  destruct (coll_query C question _ (collection s)) as [results|e];
    [destruct (format_results results) as [hits|e]|]; cbn [fst snd].
  - destruct (Z.of_nat (length hits) =? 0) eqn:Hz; cbn [sr_count]; rewrite Hz.
    + eexists. split; [reflexivity|]. cbn. lia.
    + eexists. rewrite after_after. split; [reflexivity|]. cbn. lia.
  - eexists. split; [reflexivity|]. cbn. lia.
  - eexists. split; [reflexivity|]. cbn. lia.
Qed.
End QueryCalls.

Section ReadOnly.
Context (X : Externals).
Local Abbreviation C := (index_impl X).
Implicit Types (s : agent C).

Lemma invocations_app cs1 cs2 :
  invocations (cs1 ++ cs2) = (invocations cs1 + invocations cs2)%nat.
Proof. induction cs1 as [|c cs1 IH]; cbn; [done|]. rewrite IH. lia. Qed.

Lemma queries_app cs1 cs2 :
  queries (cs1 ++ cs2) = (queries cs1 + queries cs2)%nat.
Proof. induction cs1 as [|c cs1 IH]; cbn; [done|]. rewrite IH. lia. Qed.

Lemma ask_question_quiet_calls question top_k s :
  (invocations (calls (ask_question X question top_k (quiet s)).2) <= 1)%nat /\
  (queries (calls (ask_question X question top_k (quiet s)).2) <= 1)%nat.
Proof.
  rewrite ask_question_run, search_run.
  destruct (is_blank question); [cbn; lia|].
  destruct (coll_count C (collection (quiet s)) =? 0); [cbn; lia|].
  cbv zeta.
  destruct (coll_query C question _ (collection (quiet s))) as [results|e];
    [destruct (format_results results) as [hits|e]|]; cbn [fst snd];
    [|cbn; lia..].
  destruct (Z.of_nat (length hits) =? 0) eqn:Hz; cbn [sr_count]; rewrite Hz;
    cbn; lia.
Qed.

Lemma clause_calls_bound s topics :
  (invocations (concat (map (clause_calls X s) topics)) <= length topics)%nat /\
  (queries (concat (map (clause_calls X s) topics)) <= length topics)%nat.
Proof.
  induction topics as [|topic topics [IH1 IH2]]; cbn; [lia|].
  rewrite invocations_app, queries_app. unfold clause_calls at 1 3.
  pose proof (ask_question_quiet_calls (topic_question topic) 2 s). lia.
Qed.

(** X9. [search], [ask_question], [get_document_summary] and
    [extract_key_clauses] never change the collection nor the current
    document; they only extend the log of calls. *)
Theorem questions_are_read_only question top_k s :
  (collection (search X question top_k s).2 = collection s /\
   current_document (search X question top_k s).2 = current_document s /\
   calls s `prefix_of` calls (search X question top_k s).2) /\
  (collection (ask_question X question top_k s).2 = collection s /\
   current_document (ask_question X question top_k s).2 = current_document s /\
   calls s `prefix_of` calls (ask_question X question top_k s).2) /\
  (collection (get_document_summary X s).2 = collection s /\
   current_document (get_document_summary X s).2 = current_document s /\
   calls s `prefix_of` calls (get_document_summary X s).2) /\
  (collection (extract_key_clauses X s).2 = collection s /\
   current_document (extract_key_clauses X s).2 = current_document s /\
   calls s `prefix_of` calls (extract_key_clauses X s).2).
Proof.
  assert (forall cs,
    collection (after s (collection s) cs) = collection s /\
    current_document (after s (collection s) cs) = current_document s /\
    calls s `prefix_of` calls (after s (collection s) cs)) as Hframe.
  { intros cs. split_and!; [done..|]. by exists cs. }
  split; [|split; [|split]].
  - destruct (search_frame X question top_k s) as (cs & -> & _).
    apply Hframe.
  - destruct (ask_question_frame X question top_k s) as (cs & -> & _).
    apply Hframe.
  - unfold get_document_summary.
    match goal with
    | |- context [ask_question X ?q ?k s] =>
        destruct (ask_question_frame X q k s) as (cs & -> & _)
    end. apply Hframe.
  - unfold extract_key_clauses, bind, ret.
    rewrite collect_clauses_spec. apply Hframe.
Qed.

(** X10. [extract_key_clauses] queries the index at most six times and
    calls the model at most six times, once per topic at most. *)
Theorem extract_key_clauses_calls s :
  exists cs : list call,
    (extract_key_clauses X s).2 = after s (collection s) cs /\
    (invocations cs <= 6)%nat /\
    (queries cs <= 6)%nat.
Proof.
  unfold extract_key_clauses, bind, ret. rewrite collect_clauses_spec.
  eexists. split; [reflexivity|]. apply (clause_calls_bound s key_topics).
Qed.

(** X11. [search] answers "Query is empty" exactly for the queries that
    hold no word, whatever the store holds and whatever [top_k] is. *)
Theorem search_rejects_exactly_blank query_text top_k s :
  (search X query_text top_k s).1 = Failure "Query is empty"
  <-> Py.split query_text = [].
Proof.
  rewrite <- is_blank_no_word, search_run.
  destruct (is_blank query_text); [done|].
  destruct (coll_count C (collection s) =? 0); [done|]. cbv zeta.
  destruct (coll_query C query_text _ (collection s)) as [results|e];
    [destruct (format_results results)|]; done.
Qed.
End ReadOnly.

(** ** Clearing the database *)

Section ClearFacts.
Context (X : Externals).
Local Abbreviation C := (index_impl X).
Context (K : Client C).
Implicit Types (s : agent C).

(** X12. [clear_database] always forgets the current document and never
    calls the model; its only call of the index is the count that the
    constructor of the store makes once the store is open again.  When
    deleting the collection fails and the store can be opened again, it
    reports "Error deleting collection: ..." with the store reopened;
    when opening the store fails it reports "Error clearing database:
    ...", whatever the deletion gave, and the index is not called. *)
Theorem clear_database_forgets_document collection_name s :
  current_document (clear_database X K collection_name s).2 = None /\
  calls (clear_database X K collection_name s).2
  = calls s
    ++ match client_open K collection_name
               (client_delete K collection_name (collection s)).2 with
       | Return _ => [Count]
       | Raise _ => []
       end /\
  (forall e c,
     client_delete K collection_name (collection s) = (Raise e, c) ->
     forall c', client_open K collection_name c = Return c' ->
     clear_database X K collection_name s
     = (Failure ("Error deleting collection: " +:+ e),
        {| collection := c'; current_document := None;
           calls := calls s ++ [Count] |})) /\
  (forall r c e,
     client_delete K collection_name (collection s) = (r, c) ->
     client_open K collection_name c = Raise e ->
     clear_database X K collection_name s
     = (Failure ("Error clearing database: " +:+ e),
        {| collection := c; current_document := None; calls := calls s |})).
Proof.
  unfold clear_database, bind, open_store, delete_collection, count, log.
  destruct (client_delete K collection_name (collection s)) as [r c].
  cbn [collection calls current_document snd].
  split; [|split; [|split]].
  - by destruct (client_open K collection_name c).
  - destruct (client_open K collection_name c); cbn; [done|].
    by rewrite (right_id_L [] (++)).
  - intros e c0 [= -> <-] c' ->. done.
  - intros r0 c0 e [= <- <-] ->. done.
Qed.
End ClearFacts.

Section ClearReference.
Context (distance : string -> string -> Q) (X0 : Externals).
Local Abbreviation X := (on_chroma distance X0).
Local Abbreviation K := (chroma_client distance).
Implicit Types (s : agent (Chroma.index distance)).

Lemma add_chunks_depends_on_collection chunks s1 s2 :
  collection s1 = collection s2 ->
  (add_chunks X chunks s1).1 = (add_chunks X chunks s2).1 /\
  collection (add_chunks X chunks s1).2 = collection (add_chunks X chunks s2).2.
Proof.
  intros Hc. unfold add_chunks. destruct chunks as [|c0 rest]; [done|].
  destruct (prepare _ _ _ _) as [[[documents metadatas] ids]|e]; [|done].
  unfold bind, add, count, ret. cbn. rewrite Hc.
  by destruct (Chroma.add documents metadatas ids (collection s2))
    as [[[]|e] c1].
Qed.

(** X13. On the reference client [clear_database] succeeds with the message
    "Collection '<name>' deleted" and leaves an empty collection and no
    current document: a question that holds a word is then answered
    with the empty-store error, and [add_chunks] does what it does on a
    fresh store. *)
Theorem clear_database_then_use collection_name s :
  let cleared := (clear_database X K collection_name s).2 in
  (clear_database X K collection_name s).1
  = Success ("Collection '" +:+ collection_name +:+ "' deleted") /\
  collection cleared = [] /\
  current_document cleared = None /\
  (forall question top_k,
     is_blank question = false ->
     (ask_question X question top_k cleared).1 = Failure EmptyStore) /\
  (forall chunks,
     (add_chunks X chunks cleared).1
     = (add_chunks X chunks (Sample.fresh (Chroma.index distance) [])).1 /\
     collection (add_chunks X chunks cleared).2
     = collection
         (add_chunks X chunks (Sample.fresh (Chroma.index distance) [])).2).
Proof.
  cbv zeta. split_and!; [done..| |].
  - intros question top_k Hq. rewrite ask_question_run, search_run, Hq.
    done.
  - intros chunks. by apply add_chunks_depends_on_collection.
Qed.
End ClearReference.

(** ** The request handlers *)

Section HandlerFacts.
Context (X : Externals).
Local Abbreviation C := (index_impl X).
Implicit Types (s : agent C).




End HandlerFacts.

(** ** Page-aware chunking *)

Section Numbers.

Lemma no_underscore_uint d :
  no_underscore (NilEmpty.string_of_uint d) = true.
Proof. induction d; cbn; done. Qed.

Lemma no_underscore_str i : no_underscore (Py.str i) = true.
Proof.
  unfold Py.str. destruct (Z.to_int i) as [d|d]; cbn;
    apply no_underscore_uint.
Qed.

Lemma cut_at_underscore a : forall b x y,
  no_underscore a = true -> no_underscore b = true ->
  a +:+ String "_" x = b +:+ String "_" y -> a = b /\ x = y.
Proof.
  induction a as [|c a IH]; intros [|d b] x y Ha Hb; cbn in Ha, Hb;
    rewrite ?str_app_nil, ?str_app_cons; intros H.
  - by injection H as ->.
  - injection H as <- _. by rewrite Ascii.eqb_refl in Hb.
  - injection H as -> _. by rewrite Ascii.eqb_refl in Ha.
  - injection H as -> H.
    apply andb_true_iff in Ha as [_ Ha]. apply andb_true_iff in Hb as [_ Hb].
    by destruct (IH b x y Ha Hb H) as [-> ->].
Qed.

Lemma page_id_inj (p1 p2 : Z) (x1 x2 : string) :
  "page_" +:+ Py.str p1 +:+ "_chunk_" +:+ x1
  = "page_" +:+ Py.str p2 +:+ "_chunk_" +:+ x2 ->
  p1 = p2 /\ x1 = x2.
Proof.
  intros H. apply (inj (String.app "page_")) in H.
  change ("_chunk_" +:+ x1) with (String "_" ("chunk_" +:+ x1)) in H.
  change ("_chunk_" +:+ x2) with (String "_" ("chunk_" +:+ x2)) in H.
  apply cut_at_underscore in H as [Hp Hx]; [|apply no_underscore_str..].
  apply str_inj in Hp. apply (inj (String.app "chunk_")) in Hx. done.
Qed.
End Numbers.

Section PageFacts.
Context (X : Externals).

Lemma stamp_chunks_spec page_num chunks : forall k acc,
  stamp_chunks page_num chunks k acc
  = (k + Z.of_nat (length chunks),
     acc ++ imap (fun i chunk =>
                    <["global_chunk_id" :=
                        VStr ("chunk_" +:+ Py.str (k + Z.of_nat i))]>
                      (<["page_number" := VInt page_num]> chunk)) chunks).
Proof.
  induction chunks as [|chunk rest IH]; intros k acc; cbn [stamp_chunks].
  - cbn. by rewrite Z.add_0_r, (right_id_L [] (++)).
  - rewrite IH. cbn [length imap]. f_equal; [lia|].
    rewrite <- (assoc_L (++)). cbn [app]. rewrite Z.add_0_r. do 2 f_equal.
    apply imap_ext. intros i c _. unfold compose.
    by replace (k + 1 + Z.of_nat i) with (k + Z.of_nat (S i)) by lia.
Qed.

Lemma chunk_pages_spec chunk_size chunk_overlap items : forall k acc,
  chunk_pages X items chunk_size chunk_overlap k acc
  = acc ++ imap (fun i chunk =>
                   <["global_chunk_id" :=
                       VStr ("chunk_" +:+ Py.str (k + Z.of_nat i))]> chunk)
             (concat (map (page_chunks X chunk_size chunk_overlap) items)).
Proof.
  induction items as [|[page_num text] items IH]; intros k acc;
    cbn [chunk_pages map concat].
  - cbn. by rewrite (right_id_L [] (++)).
  - unfold page_chunks at 1. cbn [fst snd].
    destruct (is_blank text); [apply IH|].
    destruct (chunk_text X text _ _ _) as [r|e]; [|apply IH].
    rewrite stamp_chunks_spec, IH, imap_app, <- (assoc_L (++)).
    f_equal. f_equal.
    + rewrite imap_fmap. done.
    + apply imap_ext. intros i c _. unfold compose. rewrite length_map.
      do 4 f_equal. lia.
Qed.
End PageFacts.

Section PageTheorems.
Context (X : Externals).

Lemma chunk_by_pages_success page_texts chunk_size chunk_overlap r :
  chunk_by_pages X page_texts chunk_size chunk_overlap = Success r ->
  page_texts <> [] /\
  pc_chunks r
  = imap (fun k chunk =>
            <["global_chunk_id" :=
                VStr ("chunk_" +:+ Py.str (Z.of_nat k + 1))]> chunk)
      (concat (map (page_chunks X chunk_size chunk_overlap) page_texts)) /\
  pc_total_pages r = Z.of_nat (length page_texts) /\
  pc_total_chunks r = Z.of_nat (length (pc_chunks r)).
Proof.
  unfold chunk_by_pages. destruct page_texts as [|item rest] eqn:Hp; [done|].
  rewrite <- Hp. intros [= <-]. cbn. split_and!; [by subst| |done..].
  rewrite chunk_pages_spec. cbn. apply imap_ext. intros k c _. cbn.
  do 4 f_equal. lia.
Qed.

Lemma page_chunks_elem chunk_size chunk_overlap page_num text chunk :
  chunk ∈ page_chunks X chunk_size chunk_overlap (page_num, text) ->
  is_blank text = false /\
  exists (segments : list string) (i : nat) (segment : string),
    split_text X chunk_size chunk_overlap text = Return segments /\
    segments !! i = Some segment /\
    chunk
    = <["page_number" := VInt page_num]>
        (chunk_obj ("page_" +:+ Py.str page_num)
           (Z.of_nat (length segments)) i segment).
Proof.
  unfold page_chunks. cbn [fst snd].
  destruct (is_blank text); [by intros ?%elem_of_nil|].
  destruct (chunk_text X text _ _ _) as [r|e] eqn:Hch;
    [|by intros ?%elem_of_nil].
  apply chunk_text_success in Hch as (segments & Hsplit & ->).
  intros (c0 & -> & Hc0)%list_elem_of_fmap. split; [done|].
  apply list_elem_of_lookup in Hc0 as [i Hi].
  rewrite list_lookup_imap in Hi.
  destruct (segments !! i) as [segment|] eqn:Hseg; [|done].
  injection Hi as <-. by exists segments, i, segment.
Qed.

(** X16. A successful [chunk_by_pages] counts every page it was given,
    blank ones too, and reports the number of chunks it returns.  The
    chunks are those of the pages, in page order, and the k-th of them
    (from 0) gets the global id "chunk_<k+1>": the numbering has no gap
    at a blank page.  Nothing but the global id is added to a chunk that
    carries its page number. *)
Theorem chunk_by_pages_numbering page_texts chunk_size chunk_overlap r :
  chunk_by_pages X page_texts chunk_size chunk_overlap = Success r ->
  pc_total_pages r = Z.of_nat (length page_texts) /\
  pc_total_chunks r = Z.of_nat (length (pc_chunks r)) /\
  length (pc_chunks r)
  = length (concat (map (page_chunks X chunk_size chunk_overlap) page_texts)) /\
  forall (k : nat) (chunk : gmap string value),
    pc_chunks r !! k = Some chunk ->
    chunk !! "global_chunk_id"
    = Some (VStr ("chunk_" +:+ Py.str (Z.of_nat k + 1))) /\
    exists stamped : gmap string value,
      concat (map (page_chunks X chunk_size chunk_overlap) page_texts) !! k
      = Some stamped /\
      forall key : string,
        key <> "global_chunk_id" -> chunk !! key = stamped !! key.
Proof.
  intros (_ & Hchunks & Hpages & Htotal)%chunk_by_pages_success.
  split_and!; [done..| |].
  - by rewrite Hchunks, length_imap.
  - intros k chunk. rewrite Hchunks, list_lookup_imap.
    destruct (concat _ !! k) as [stamped|]; [|done].
    intros [= <-]. split; [by rewrite lookup_insert_eq|].
    exists stamped. split; [done|]. intros key Hkey.
    by rewrite lookup_insert_ne.
Qed.

(** X17. Every chunk of [chunk_by_pages] comes from a page that is not
    blank: it has the number of that page, one segment of the text of
    that page, the source "page_<n>", its index and the total within the
    page, and the id "page_<n>_chunk_<i>", which is truthy, so that
    [add_chunks] stores the chunk under this id and not under its global
    id. *)
Theorem chunk_by_pages_attribution page_texts chunk_size chunk_overlap r
    chunk :
  chunk_by_pages X page_texts chunk_size chunk_overlap = Success r ->
  chunk ∈ pc_chunks r ->
  exists (page_num : Z) (text : string) (segments : list string) (i : nat)
         (segment : string),
    (page_num, text) ∈ page_texts /\
    is_blank text = false /\
    split_text X chunk_size chunk_overlap text = Return segments /\
    segments !! i = Some segment /\
    chunk !! "page_number" = Some (VInt page_num) /\
    chunk !! "text" = Some (VStr segment) /\
    chunk !! "source" = Some (VStr ("page_" +:+ Py.str page_num)) /\
    chunk !! "chunk_index" = Some (VInt (Z.of_nat i + 1)) /\
    chunk !! "total_chunks" = Some (VInt (Z.of_nat (length segments))) /\
    chunk !! "id"
    = Some (VStr ("page_" +:+ Py.str page_num +:+ "_chunk_"
                  +:+ Py.str (Z.of_nat i + 1))) /\
    truthy (chunk !! "id") = true.
Proof.
  intros (_ & Hchunks & _)%chunk_by_pages_success.
  rewrite Hchunks. intros [k Hk]%list_elem_of_lookup.
  rewrite list_lookup_imap in Hk.
  destruct (concat _ !! k) as [stamped|] eqn:Hst; [|done].
  injection Hk as <-.
  apply list_elem_of_lookup_2, list_elem_of_In, in_concat in Hst
    as (l & Hl & Hin).
  apply in_map_iff in Hl as ([page_num text] & <- & Hitem).
  apply list_elem_of_In, page_chunks_elem in Hin
    as (Hblank & segments & i & segment & Hsplit & Hseg & ->).
  exists page_num, text, segments, i, segment.
  assert (forall key v,
    key <> "global_chunk_id" -> key <> "page_number" ->
    chunk_obj ("page_" +:+ Py.str page_num) (Z.of_nat (length segments))
      i segment !! key = Some v ->
    <["global_chunk_id" := VStr ("chunk_" +:+ Py.str (Z.of_nat k + 1))]>
      (<["page_number" := VInt page_num]>
         (chunk_obj ("page_" +:+ Py.str page_num)
            (Z.of_nat (length segments)) i segment)) !! key = Some v) as Hkey.
  { intros key v ? ?. by rewrite !lookup_insert_ne. }
  split_and!; [by apply list_elem_of_In|done..| | | | | | |].
  - by dict_lookup.
  - apply Hkey; [done..|]. apply chunk_obj_text.
  - apply Hkey; [done..|]. unfold chunk_obj. by dict_lookup.
  - apply Hkey; [done..|]. apply chunk_obj_chunk_index.
  - apply Hkey; [done..|]. apply chunk_obj_total_chunks.
  - rewrite (Hkey "id" _ ltac:(done) ltac:(done) (chunk_obj_id _ _ _ _)).
    by rewrite str_app_assoc.
  - rewrite (Hkey "id" _ ltac:(done) ltac:(done) (chunk_obj_id _ _ _ _)).
    cbn [truthy]. by rewrite chunk_name_nonempty.
Qed.
End PageTheorems.

Section PageIds.
Context (X : Externals).

Lemma page_chunks_id chunk_size chunk_overlap page_num text chunk :
  chunk ∈ page_chunks X chunk_size chunk_overlap (page_num, text) ->
  exists i : nat,
    chunk !! "id"
    = Some (VStr ("page_" +:+ Py.str page_num +:+ "_chunk_"
                  +:+ Py.str (Z.of_nat i + 1))).
Proof.
  intros (_ & segments & i & segment & _ & _ & ->)%page_chunks_elem.
  exists i. rewrite lookup_insert_ne by done.
  by rewrite chunk_obj_id, str_app_assoc.
Qed.

Lemma page_chunks_ids_nodup chunk_size chunk_overlap item :
  NoDup (map (fun chunk : gmap string value => chunk !! "id")
           (page_chunks X chunk_size chunk_overlap item)).
Proof.
  unfold page_chunks. destruct (is_blank item.2); [constructor|].
  destruct (chunk_text X item.2 _ _ _) as [r|e] eqn:Hch; [|constructor].
  apply chunk_text_success in Hch as (segments & _ & ->).
  apply NoDup_alt. intros i j x.
  rewrite !list_lookup_fmap, !list_lookup_imap.
  destruct (segments !! i) as [a|]; [|done].
  destruct (segments !! j) as [b|]; [|done].
  cbn. rewrite !lookup_insert_ne by done. rewrite !chunk_obj_id.
  intros [= <-] [= H]. symmetry. by apply chunk_id_inj in H.
Qed.

Lemma pages_ids_nodup chunk_size chunk_overlap items :
  NoDup items.*1 ->
  NoDup (map (fun chunk : gmap string value => chunk !! "id")
           (concat (map (page_chunks X chunk_size chunk_overlap) items))).
Proof.
  induction items as [|[page_num text] items IH]; cbn; [constructor|].
  intros [Hfresh Hrest]%NoDup_cons. rewrite map_app.
  apply NoDup_app. split_and!.
  - apply page_chunks_ids_nodup.
  - intros x (c1 & -> & Hc1)%list_elem_of_fmap
      (c2 & Hid & Hc2)%list_elem_of_fmap.
    apply page_chunks_id in Hc1 as [i Hi].
    apply list_elem_of_In, in_concat in Hc2 as (l & Hl & Hin).
    apply in_map_iff in Hl as ([p2 t2] & <- & Hitem).
    apply list_elem_of_In, page_chunks_id in Hin as [j Hj].
    rewrite Hi, Hj in Hid.
    apply (f_equal (fun o => match o with
                             | Some (VStr t) => t
                             | _ => EmptyString
                             end)) in Hid.
    cbv beta iota in Hid. apply page_id_inj in Hid as [-> _].
    apply Hfresh, list_elem_of_fmap. exists (p2, t2).
    split; [done|]. by apply list_elem_of_In.
  - by apply IH.
Qed.

(** X18. When the page numbers are distinct, as the keys of a dictionary
    are, no two chunks of [chunk_by_pages] share an id, and no two share
    a global id. *)
Theorem chunk_by_pages_ids_distinct page_texts chunk_size chunk_overlap r :
  chunk_by_pages X page_texts chunk_size chunk_overlap = Success r ->
  NoDup page_texts.*1 ->
  NoDup (map (fun chunk : gmap string value => chunk !! "id") (pc_chunks r)) /\
  NoDup (map (fun chunk : gmap string value => chunk !! "global_chunk_id")
           (pc_chunks r)).
Proof.
  intros (_ & Hchunks & _)%chunk_by_pages_success Hkeys. rewrite Hchunks.
  split.
  - assert (forall l : list (gmap string value),
      map (fun chunk : gmap string value => chunk !! "id")
        (imap (fun k chunk =>
                 <["global_chunk_id" :=
                     VStr ("chunk_" +:+ Py.str (Z.of_nat k + 1))]> chunk) l)
      = map (fun chunk : gmap string value => chunk !! "id") l) as ->.
    { intros l. apply list_eq. intros i.
      rewrite !list_lookup_fmap, list_lookup_imap.
      destruct (l !! i); cbn; [|done]. by rewrite lookup_insert_ne. }
    by apply pages_ids_nodup.
  - apply NoDup_alt. intros i j x.
    rewrite !list_lookup_fmap, !list_lookup_imap.
    destruct (concat _ !! i) as [a|]; [|done].
    destruct (concat _ !! j) as [b|]; [|done].
    cbn. rewrite !lookup_insert_eq. intros [= <-] [= H].
    change (Py.str (Z.of_nat j + 1) = Py.str (Z.of_nat i + 1)) in H.
    apply str_inj in H. lia.
Qed.
End PageIds.

Lemma chunk_by_pages_numbering_witness :
  chunk_by_pages Sample.pipeline Desk.lease_pages 500 50
  = Success Desk.lease_page_chunking /\
  pc_total_pages Desk.lease_page_chunking
  = Z.of_nat (length Desk.lease_pages) /\
  pc_total_chunks Desk.lease_page_chunking
  = Z.of_nat (length (pc_chunks Desk.lease_page_chunking)) /\
  length (pc_chunks Desk.lease_page_chunking)
  = length (concat (map (page_chunks Sample.pipeline 500 50)
                      Desk.lease_pages)) /\
  forall (k : nat) (chunk : gmap string value),
    pc_chunks Desk.lease_page_chunking !! k = Some chunk ->
    chunk !! "global_chunk_id"
    = Some (VStr ("chunk_" +:+ Py.str (Z.of_nat k + 1))) /\
    exists stamped : gmap string value,
      concat (map (page_chunks Sample.pipeline 500 50) Desk.lease_pages) !! k
      = Some stamped /\
      forall key : string,
        key <> "global_chunk_id" -> chunk !! key = stamped !! key.
Proof.
  assert (chunk_by_pages Sample.pipeline Desk.lease_pages 500 50
          = Success Desk.lease_page_chunking) as Hrun
    by (vm_compute; reflexivity).
  split; [exact Hrun|].
  exact (chunk_by_pages_numbering Sample.pipeline Desk.lease_pages 500 50
           Desk.lease_page_chunking Hrun).
Defined.

Lemma chunk_by_pages_attribution_witness :
  exists (page_num : Z) (text : string) (segments : list string) (i : nat)
         (segment : string),
    (page_num, text) ∈ Desk.lease_pages /\
    is_blank text = false /\
    Sample.hard_cut 500 50 text = Return segments /\
    segments !! i = Some segment /\
    Desk.third_page_chunk !! "page_number" = Some (VInt page_num) /\
    Desk.third_page_chunk !! "text" = Some (VStr segment) /\
    Desk.third_page_chunk !! "source"
    = Some (VStr ("page_" +:+ Py.str page_num)) /\
    Desk.third_page_chunk !! "chunk_index" = Some (VInt (Z.of_nat i + 1)) /\
    Desk.third_page_chunk !! "total_chunks"
    = Some (VInt (Z.of_nat (length segments))) /\
    Desk.third_page_chunk !! "id"
    = Some (VStr ("page_" +:+ Py.str page_num +:+ "_chunk_"
                  +:+ Py.str (Z.of_nat i + 1))) /\
    truthy (Desk.third_page_chunk !! "id") = true.
Proof.
  apply (chunk_by_pages_attribution Sample.pipeline Desk.lease_pages 500 50
           Desk.lease_page_chunking).
  - vm_compute. reflexivity.
  - apply list_elem_of_lookup. exists 1%nat. reflexivity.
Defined.

Lemma chunk_by_pages_ids_distinct_witness :
  NoDup (map (fun chunk : gmap string value => chunk !! "id")
           (pc_chunks Desk.lease_page_chunking)) /\
  NoDup (map (fun chunk : gmap string value => chunk !! "global_chunk_id")
           (pc_chunks Desk.lease_page_chunking)).
Proof.
  apply (chunk_by_pages_ids_distinct Sample.pipeline Desk.lease_pages 500 50).
  - vm_compute. reflexivity.
  - repeat (apply NoDup_cons_2;
              [rewrite ?elem_of_cons, elem_of_nil; intuition discriminate|]).
    apply NoDup_nil_2.
Defined.

(** ** From ingestion to citation on the reference index *)

Section IngestRun.
Context (X : Externals).
Local Abbreviation C := (index_impl X).

Lemma process_document_success pdf_path (s : agent C) message info s' :
  process_document X pdf_path s = (Success (message, info), s') ->
  exists (e : extraction) (segments : list string),
    extract_text_from_pdf X pdf_path = Success e /\
    split_text X (get_optimal_chunk_size (ex_text e)) 200 (ex_text e)
    = Return segments /\
    di_filename info = md_filename (ex_metadata e) /\
    di_num_chunks info = Z.of_nat (length segments) /\
    coll_add C (map VStr segments)
      (imap (fun i segment =>
               chunk_metadata
                 (chunk_obj (di_filename info) (Z.of_nat (length segments))
                    i segment)) segments)
      (imap (fun i _ =>
               VStr (di_filename info +:+ "_chunk_"
                     +:+ Py.str (Z.of_nat i + 1))) segments)
      (collection s)
    = (Return tt, collection s').
Proof.
  unfold process_document.
  destruct (extract_text_from_pdf X pdf_path) as [e|err]; [|done].
  destruct (chunk_text X _ _ _ _) as [ch|err] eqn:Hch; [|done].
  apply chunk_text_success in Hch as (segments & Hsplit & Hchunks).
  rewrite Hchunks. unfold bind, add_chunks.
  destruct (imap _ segments) as [|c0 rest] eqn:Himap; [done|].
  cbv beta iota. rewrite <- Himap. rewrite prepare_chunk_objs.
  unfold bind, add, count, ret, set_current_document. cbn.
  destruct (coll_add C _ _ _ (collection s)) as [[[]|err] c1] eqn:Hadd;
    [|done].
  cbn. intros [= <- <- <-]. cbn.
  exists e, segments. split_and!; [done..| |done].
  by rewrite length_imap.
Qed.
End IngestRun.

Section ReferenceRecords.
Implicit Types (c : list Chroma.record) (r : Chroma.record).

Lemma existsb_eqb_false x (l : list string) i :
  existsb (String.eqb x) l = false -> i ∈ l -> x <> i.
Proof.
  intros H Hi ->. apply list_elem_of_In in Hi.
  assert (existsb (String.eqb i) l = true) as Ht.
  { apply existsb_exists. exists i. split; [done|]. apply String.eqb_refl. }
  congruence.
Qed.

Lemma has_id_snoc c r i :
  Chroma.has_id (c ++ [r]) i
  = Chroma.has_id c i || String.eqb (Chroma.rec_id r) i.
Proof. rewrite has_id_app. cbn. by rewrite orb_false_r. Qed.

(** A batch of fresh, pairwise distinct ids is stored whole, in order. *)
Lemma foldl_add_one_fresh ids : forall docs mds c,
  Chroma.unique ids = true ->
  (forall i, i ∈ ids -> Chroma.has_id c i = false) ->
  foldl Chroma.add_one c (Chroma.records ids docs mds)
  = c ++ Chroma.records ids docs mds.
Proof.
  induction ids as [|x ids IH]; intros docs mds c Hu Hfresh.
  { cbn. by rewrite (right_id_L [] (++)). }
  unfold Chroma.records in *.
  destruct docs as [|d docs], mds as [|m mds]; cbn;
    try by rewrite (right_id_L [] (++)).
  cbn in Hu. apply andb_true_iff in Hu as [Hx Hu].
  apply negb_true_iff in Hx.
  unfold Chroma.add_one at 2. cbn [Chroma.rec_id].
  rewrite (Hfresh x) by (apply elem_of_cons; by left).
  rewrite IH; [by rewrite <- (assoc_L (++))|done|].
  intros i Hi. rewrite has_id_snoc. cbn [Chroma.rec_id].
  rewrite (Hfresh i) by (apply elem_of_cons; by right). cbn.
  apply String.eqb_neq. by eapply existsb_eqb_false.
Qed.

Lemma chroma_add_to_empty documents metadatas ids c' :
  Chroma.add documents metadatas ids [] = (Return tt, c') ->
  exists ids' docs',
    mapM Chroma.as_str ids = Some ids' /\
    mapM Chroma.as_str documents = Some docs' /\
    length ids' = length docs' /\
    length ids' = length metadatas /\
    c' = Chroma.records ids' docs' metadatas.
Proof.
  unfold Chroma.add.
  destruct (mapM Chroma.as_str ids) as [ids'|]; [|done].
  destruct (mapM Chroma.as_str documents) as [docs'|]; [|done].
  destruct (negb _) eqn:Hlen; [done|].
  destruct (negb (Chroma.unique ids')) eqn:Hu; [done|].
  intros [= <-]. exists ids', docs'.
  apply negb_false_iff, andb_true_iff in Hlen as [H1 H2].
  apply Nat.eqb_eq in H1, H2. apply negb_false_iff in Hu.
  split_and!; [done..|].
  by rewrite foldl_add_one_fresh.
Qed.

Lemma records_metadata ids docs mds r :
  r ∈ Chroma.records ids docs mds -> Chroma.rec_metadata r ∈ mds.
Proof.
  unfold Chroma.records. intros [k Hk]%list_elem_of_lookup.
  apply lookup_zip_with_Some in Hk as (i & [d m] & -> & _ & Hdm).
  apply lookup_zip_with_Some in Hdm as (d' & m' & [= -> ->] & _ & Hm).
  cbn. by eapply list_elem_of_lookup_2.
Qed.

Lemma length_records ids docs mds :
  length ids = length docs -> length ids = length mds ->
  length (Chroma.records ids docs mds) = length ids.
Proof.
  intros H1 H2. unfold Chroma.records.
  rewrite length_zip_with, length_zip. lia.
Qed.
End ReferenceRecords.

Section Citations.
Context (distance : string -> string -> Q) (X0 : Externals).
Local Abbreviation X := (on_chroma distance X0).
Implicit Types (s : agent (Chroma.index distance)).

Lemma ask_question_reference_success question top_k s a s' :
  ask_question X question top_k s = (Success a, s') ->
  let n := Z.min top_k (Chroma.count (collection s)) in
  0 < n /\
  ans_sources a
  = map cite
      (map (chroma_hit distance question)
         (take (Z.to_nat n) (Chroma.nearest distance question (collection s))))
  /\
  ans_num_sources a = n.
Proof.
  rewrite ask_question_run, search_run. cbv zeta.
  destruct (is_blank question); [done|].
  destruct (coll_count _ _ =? 0) eqn:Hc; [done|].
  destruct (coll_query _ _ _ _) as [results|e] eqn:Hq; [|done].
  change (Chroma.query distance question
            (Z.min top_k (Chroma.count (collection s))) (collection s)
          = Return results) in Hq.
  change ((Chroma.count (collection s) =? 0) = false) in Hc.
  unfold Chroma.query in Hq.
  destruct (Z.min top_k (Chroma.count (collection s)) <=? 0) eqn:Hn; [done|].
  injection Hq as <-.
  rewrite format_results_query. cbv beta iota. cbn [sr_count sr_results].
  destruct (Z.of_nat (length _) =? 0); [done|].
  destruct (llm_invoke X _) as [text|e]; [|done].
  intros [= <- _]. cbn [ans_sources ans_num_sources].
  split; [lia|]. split; [done|].
  rewrite !length_map, length_take.
  rewrite (Permutation_length (nearest_perm distance question (collection s))).
  unfold Chroma.count in *. lia.
Qed.

(** X19. After [process_document] has put a document into an empty
    reference index, the index holds as many records as the document
    has chunks, and a successful [ask_question] cites the smaller of
    [top_k] and that number of sources, each with the file name of the
    document as source and with page 0. *)
Theorem citations_after_ingest pdf_path s0 message info s1 question top_k
    a s2 :
  collection s0 = [] ->
  process_document X pdf_path s0 = (Success (message, info), s1) ->
  ask_question X question top_k s1 = (Success a, s2) ->
  Chroma.count (collection s1) = di_num_chunks info /\
  ans_num_sources a = Z.min top_k (di_num_chunks info) /\
  Forall (fun src : source =>
            src_source src = VStr (di_filename info) /\
            src_page src = VInt 0) (ans_sources a).
Proof.
  intros Hempty Hrun Hask.
  apply process_document_success in Hrun
    as (e & segments & _ & _ & Hfile & Hnum & Hadd).
  set (mds := imap _ segments) in Hadd. set (ids := imap _ segments) in Hadd.
  change (Chroma.add (map VStr segments) mds ids (collection s0)
          = (Return tt, collection s1)) in Hadd.
  rewrite Hempty in Hadd.
  apply chroma_add_to_empty in Hadd
    as (ids' & docs' & Hids & Hdocs & Hlen1 & Hlen2 & Hstore).
  subst mds ids. rewrite length_imap in Hlen2.
  assert (Chroma.count (collection s1) = di_num_chunks info) as Hcount.
  { rewrite Hstore. unfold Chroma.count.
    rewrite length_records by (by rewrite ?length_imap). lia. }
  apply ask_question_reference_success in Hask as (Hn & Hsrc & Hlen).
  cbv zeta in *. rewrite Hcount in *. split_and!; [done..|].
  rewrite Hsrc. apply Forall_fmap, Forall_fmap, Forall_take.
  rewrite (nearest_perm distance question (collection s1)).
  rewrite Hstore. apply Forall_forall. intros r Hr.
  apply records_metadata in Hr.
  apply list_elem_of_lookup in Hr as [i Hi].
  rewrite list_lookup_imap in Hi.
  destruct (segments !! i) as [segment|]; [|done].
  injection Hi as Hmd. cbn. unfold dict_get. rewrite <- Hmd.
  rewrite chunk_metadata_chunk_obj. by dict_lookup.
Qed.
End Citations.

Lemma citations_after_ingest_witness :
  Chroma.count (collection Sample.processed)
  = di_num_chunks Sample.lease_info /\
  ans_num_sources Desk.lease_answer
  = Z.min 3 (di_num_chunks Sample.lease_info) /\
  Forall (fun src : source =>
            src_source src = VStr (di_filename Sample.lease_info) /\
            src_page src = VInt 0) (ans_sources Desk.lease_answer).
Proof.
  apply (citations_after_ingest Sample.distance Sample.pipeline
           "documents/lease.pdf" Sample.empty
           "Document processed successfully!" Sample.lease_info
           Sample.processed Sample.question 3 Desk.lease_answer Desk.asked).
  - reflexivity.
  - vm_compute. reflexivity.
  - vm_compute. reflexivity.
Defined.
